(** * Pre-flight environment checks of the PyTorch engine

    A shallow embedding of [lmdeploy/pytorch/check_env/__init__.py].

    The module is a sequence of probes.  Each probe talks to the outside
    world (imports, smoke tests on the accelerator, configuration loads),
    writes log records, and on a fatal finding calls [_handle_exception],
    which logs and leaves the interpreter through [exit(1)].

    The embedding keeps those effects explicit:
    - the outside world is an [Env] record of oracles, one per external
      operation, each answering with a value or with the exception raised;
    - a run yields the trace of observable events (logger calls, imports,
      external calls) and an outcome: a normal return, a propagating
      exception, or [SystemExit];
    - a logger call made with [exc_info=1] records the exception being
      handled at that point, which is the one its record describes;
    - local variables that a [try] body binds and a handler or a later
      statement reads live in a per-function record, so that a variable read
      before its assignment raises [UnboundLocalError] as in Python. *)

From Stdlib Require Import ZArith NArith List String Ascii Bool Lia DecimalString.
From stdpp Require Import base option gmap strings pretty.

Set Default Proof Using "Type".
Set Warnings "-register-all".
Open Scope string_scope.
Open Scope list_scope.

(* ===================================================================== *)
(** * Python values, text and exceptions *)
(* ===================================================================== *)

Module Py.

(** The fragment of Python values that reaches this module as exception
    arguments, remediation messages and configuration entries.  A [string]
    stands for the [str] that has one character per [ascii], the character
    of that code point: text is text of characters below U+0100. *)
Inductive PyVal : Type :=
| PNone
| PInt (z : Z)
| PStr (s : string)
| PTuple (items : list PyVal).

Definition nl : string := String "010"%char EmptyString.
Definition esc : string := String "027"%char EmptyString.
Definition squote : ascii := "039"%char.
Definition dquote : ascii := "034"%char.
Definition backslash : ascii := "092"%char.

(** [needle in hay] on two [str] operands. *)
Fixpoint is_substring (needle hay : string) : bool :=
  String.prefix needle hay ||
  match hay with
  | EmptyString => false
  | String _ hay' => is_substring needle hay'
  end.

Fixpoint has_char (c : ascii) (s : string) : bool :=
  match s with
  | EmptyString => false
  | String d s' => Ascii.eqb c d || has_char c s'
  end.

Definition hex_digit (n : N) : ascii :=
  match n with
  | 10 => "a" | 11 => "b" | 12 => "c" | 13 => "d" | 14 => "e" | 15 => "f"
  | _ => ascii_of_N (48 + n)
  end%N%char.

(** [str.isprintable] on one character below U+0100: all but the control
    characters (below U+0020, and U+007F to U+009F), the no-break space
    U+00A0 and the soft hyphen U+00AD. *)
Definition printable (n : N) : bool :=
  negb ((n <? 32) || ((127 <=? n) && (n <=? 160)) || (n =? 173))%N.

(** The body of [repr] of a [str]: the quote in use and the backslash are
    escaped, tab, newline and carriage return are written [\t], [\n] and
    [\r], every other character that is not printable is written [\xNN]
    with two lowercase hexadecimal digits, and the rest is copied. *)
Fixpoint escape (quote : ascii) (s : string) : string :=
  match s with
  | EmptyString => EmptyString
  | String c s' =>
      let n := N_of_ascii c in
      let rest := escape quote s' in
      if Ascii.eqb c quote || Ascii.eqb c backslash then
        String backslash (String c rest)
      else if (n =? 9)%N then String backslash (String "t" rest)
      else if (n =? 10)%N then String backslash (String "n" rest)
      else if (n =? 13)%N then String backslash (String "r" rest)
      else if negb (printable n) then
        String backslash
          (String "x" (String (hex_digit (n / 16)) (String (hex_digit (n mod 16)) rest)))
      else String c rest
  end.

(** [repr] of a [str]: single quotes unless the text has a single quote
    and no double quote. *)
Definition repr_str (s : string) : string :=
  let quote := if has_char squote s && negb (has_char dquote s)
               then dquote else squote in
  String quote (escape quote s +:+ String quote EmptyString).

Definition repr_tuple (items : list string) : string :=
  match items with
  | [] => "()"
  | [x] => "(" +:+ x +:+ ",)"
  | _ => "(" +:+ String.concat ", " items +:+ ")"
  end.

Fixpoint py_repr (v : PyVal) : string :=
  match v with
  | PNone => "None"
  | PInt z => pretty z
  | PStr s => repr_str s
  | PTuple items => repr_tuple (List.map py_repr items)
  end.

(** [str(v)], which is also what an f-string field [{v}] renders. *)
Definition py_str (v : PyVal) : string :=
  match v with
  | PStr s => s
  | _ => py_repr v
  end.

Definition is_None (v : PyVal) : bool :=
  match v with PNone => true | _ => false end.

(** [v == s] for a [str] literal [s]. *)
Definition eq_str (s : string) (v : PyVal) : bool :=
  match v with
  | PStr s' => String.eqb s' s
  | _ => false
  end.

(** Exception classes matter to this module in two ways: the class name
    printed by [type(e).__name__], and which [except] clause catches the
    exception.  Only [RuntimeError], [AssertionError] and [Exception] are
    named in [except] clauses, so the family records the most specific
    of those three the class derives from.  [exc_str] is [str(e)], which
    subclasses such as [OSError] and [KeyError] compute in their own
    way. *)
Inductive Family : Type := FRuntimeError | FAssertionError | FException.

Record Exn : Type := mkExn {
  exc_type : string;
  exc_family : Family;
  exc_args : list PyVal;
  exc_str : string
}.

Definition is_RuntimeError (e : Exn) : bool :=
  match exc_family e with FRuntimeError => true | _ => false end.

Definition is_AssertionError (e : Exn) : bool :=
  match exc_family e with FAssertionError => true | _ => false end.

Definition RuntimeError (msg : string) : Exn :=
  mkExn "RuntimeError" FRuntimeError [PStr msg] msg.

Definition AssertionError (msg : string) : Exn :=
  mkExn "AssertionError" FAssertionError [PStr msg] msg.

Definition TypeError (msg : string) : Exn :=
  mkExn "TypeError" FException [PStr msg] msg.

(** Reading a local variable that no assignment has reached. *)
Definition UnboundLocalError (name : string) : Exn :=
  let msg := "cannot access local variable '" +:+ name +:+
             "' where it is not associated with a value" in
  mkExn "UnboundLocalError" FException [PStr msg] msg.

Definition type_name (v : PyVal) : string :=
  match v with
  | PNone => "NoneType"
  | PInt _ => "int"
  | PStr _ => "str"
  | PTuple _ => "tuple"
  end.

(** [needle in container] for a [str] literal [needle]: substring search
    in a [str], membership in a tuple, [TypeError] on a value that is not
    iterable. *)
Definition py_in (needle : string) (container : PyVal) : Exn + bool :=
  match container with
  | PStr s => inr (is_substring needle s)
  | PTuple items => inr (existsb (eq_str needle) items)
  | _ => inl (TypeError ("argument of type '" +:+ type_name container +:+
                         "' is not iterable"))
  end.

End Py.
Export Py.

(* ===================================================================== *)
(** * Versions: [packaging.version] *)
(* ===================================================================== *)

(** The probes compare versions with the [packaging] library, which is an
    external dependency of the module.  A [Version] carries the public
    fields of [packaging.version.Version]; it is ordered by the comparison
    key that library derives from them, and printed the way its [__str__]
    does. *)
Module Version.

Inductive PreTag : Type := PreA | PreB | PreRC.

Inductive LocalSeg : Type :=
| LocalInt (n : N)
| LocalStr (s : string).

Record t : Type := mk {
  epoch : N;
  release : list N;
  pre : option (PreTag * N);
  post : option N;
  dev : option N;
  local : option (list LocalSeg)
}.

(** A plain release such as [4.44.1]. *)
Definition of_release (r : list N) : t := mk 0 r None None None None.

(** ** Ordering *)

(** A key component extended with the two sentinels the library uses. *)
Inductive Ext (A : Type) : Type :=
| NegInf
| Fin (a : A)
| PosInf.
Arguments NegInf {A}.
Arguments Fin {A} a.
Arguments PosInf {A}.

Definition lex (c1 c2 : comparison) : comparison :=
  match c1 with Eq => c2 | _ => c1 end.

(** Python's ordering of tuples: the first differing position decides,
    and a proper prefix is smaller. *)
Fixpoint cmp_tuple {A : Type} (cmp : A -> A -> comparison)
         (xs ys : list A) : comparison :=
  match xs, ys with
  | [], [] => Eq
  | [], _ :: _ => Lt
  | _ :: _, [] => Gt
  | x :: xs', y :: ys' => lex (cmp x y) (cmp_tuple cmp xs' ys')
  end.

Definition cmp_ext {A : Type} (cmp : A -> A -> comparison)
           (x y : Ext A) : comparison :=
  match x, y with
  | NegInf, NegInf => Eq
  | NegInf, _ => Lt
  | _, NegInf => Gt
  | PosInf, PosInf => Eq
  | PosInf, _ => Gt
  | _, PosInf => Lt
  | Fin a, Fin b => cmp a b
  end.

Definition tag_rank (g : PreTag) : N :=
  match g with PreA => 0 | PreB => 1 | PreRC => 2 end%N.

Definition cmp_pre (x y : PreTag * N) : comparison :=
  lex (N.compare (tag_rank (fst x)) (tag_rank (fst y)))
      (N.compare (snd x) (snd y)).

(** Numeric local segments sort above alphanumeric ones. *)
Definition cmp_seg (x y : LocalSeg) : comparison :=
  match x, y with
  | LocalInt a, LocalInt b => N.compare a b
  | LocalInt _, LocalStr _ => Gt
  | LocalStr _, LocalInt _ => Lt
  | LocalStr a, LocalStr b => String.compare a b
  end.

Fixpoint drop_zeros (l : list N) : list N :=
  match l with
  | 0%N :: l' => drop_zeros l'
  | _ => l
  end.

(** The release with its trailing zeros removed, so that [1.0] and [1]
    compare equal. *)
Definition key_release (v : t) : list N :=
  List.rev (drop_zeros (List.rev (release v))).

Definition key_pre (v : t) : Ext (PreTag * N) :=
  match pre v, post v, dev v with
  | None, None, Some _ => NegInf
  | None, _, _ => PosInf
  | Some p, _, _ => Fin p
  end.

Definition key_post (v : t) : Ext N :=
  match post v with None => NegInf | Some n => Fin n end.

Definition key_dev (v : t) : Ext N :=
  match dev v with None => PosInf | Some n => Fin n end.

Definition key_local (v : t) : Ext (list LocalSeg) :=
  match local v with None => NegInf | Some l => Fin l end.

Definition compare (a b : t) : comparison :=
  lex (N.compare (epoch a) (epoch b))
 (lex (cmp_tuple N.compare (key_release a) (key_release b))
 (lex (cmp_ext cmp_pre (key_pre a) (key_pre b))
 (lex (cmp_ext N.compare (key_post a) (key_post b))
 (lex (cmp_ext N.compare (key_dev a) (key_dev b))
      (cmp_ext (cmp_tuple cmp_seg) (key_local a) (key_local b)))))).

Definition ltb (a b : t) : bool :=
  match compare a b with Lt => true | _ => false end.
Definition leb (a b : t) : bool :=
  match compare a b with Gt => false | _ => true end.
Definition gtb (a b : t) : bool :=
  match compare a b with Gt => true | _ => false end.
Definition geb (a b : t) : bool :=
  match compare a b with Lt => false | _ => true end.

(** ** Printing *)

Definition tag_str (g : PreTag) : string :=
  match g with PreA => "a" | PreB => "b" | PreRC => "rc" end.

Definition seg_str (x : LocalSeg) : string :=
  match x with LocalInt n => pretty n | LocalStr s => s end.

Definition str (v : t) : string :=
  (if (epoch v =? 0)%N then "" else pretty (epoch v) +:+ "!") +:+
  String.concat "." (List.map pretty (release v)) +:+
  match pre v with None => "" | Some (g, n) => tag_str g +:+ pretty n end +:+
  match post v with None => "" | Some n => ".post" +:+ pretty n end +:+
  match dev v with None => "" | Some n => ".dev" +:+ pretty n end +:+
  match local v with
  | None => ""
  | Some l => "+" +:+ String.concat "." (List.map seg_str l)
  end.

(** ** Parsing *)

Fixpoint split_on (sep : ascii) (s : string) : list string :=
  match s with
  | EmptyString => [EmptyString]
  | String c s' =>
      if Ascii.eqb c sep then EmptyString :: split_on sep s'
      else match split_on sep s' with
           | h :: tl => String c h :: tl
           | [] => [String c EmptyString]
           end
  end.

Definition parse_number (s : string) : option N :=
  match s with
  | EmptyString => None
  | _ => option_map N.of_uint (NilEmpty.uint_of_string s)
  end.

Fixpoint parse_numbers (l : list string) : option (list N) :=
  match l with
  | [] => Some []
  | s :: l' =>
      match parse_number s, parse_numbers l' with
      | Some n, Some ns => Some (n :: ns)
      | _, _ => None
      end
  end.

(** Decimal numbers separated by dots: the form of every version string
    written in the module, and of the release part of any other. *)
Definition parse_release (s : string) : option (list N) :=
  parse_numbers (split_on "." s).

End Version.

(* ===================================================================== *)
(** * Effects: traces, outcomes and local variables *)
(* ===================================================================== *)

Inductive Level : Type := DEBUG | INFO | WARNING | ERROR.

(** What a logger call passes as [exc_info].  With [exc_info=1] the record
    carries the exception being handled when the call is made, which is
    what [sys.exc_info()] holds then: the exception of the enclosing
    [except] block, or nothing when the call is made outside any. *)
Inductive ExcInfo : Type :=
| NoExcInfo
| ExcInfoOf (handling : option Exn).

(** A call without [exc_info] is written [false]. *)
Definition exc_info_flag (b : bool) : ExcInfo :=
  if b then ExcInfoOf None else NoExcInfo.
Coercion exc_info_flag : bool >-> ExcInfo.

(** What a run does that can be observed from outside: a call on the
    ['lmdeploy'] logger (with what it passes as [exc_info]), an [import]
    statement reaching the import system, a call into a library. *)
Inductive Event : Type :=
| Log (level : Level) (msg : string) (exc_info : ExcInfo)
| Import (module : string)
| Call (fn : string) (args : list string).

(** How a call ends.  [exit(1)] raises [SystemExit], which derives from
    [BaseException] only: no [except Exception] clause catches it, so it
    is kept apart from the exceptions a handler can see. *)
Inductive Outcome (A : Type) : Type :=
| Return (a : A)
| Raise (e : Exn)
| SystemExit (code : Z).
Arguments Return {A} a.
Arguments Raise {A} e.
Arguments SystemExit {A} code.

(** The result of calling a function: its trace and its outcome. *)
Definition Res (A : Type) : Type := list Event * Outcome A.

(** A block of statements of a function whose local variables are [S]. *)
Definition M (S A : Type) : Type := S -> list Event * S * Outcome A.

Definition ret {S A : Type} (a : A) : M S A :=
  fun s => ([], s, Return a).

Definition bind {S A B : Type} (m : M S A) (f : A -> M S B) : M S B :=
  fun s =>
    match m s with
    | (t, s', Return a) =>
        let '(t', s'', o) := f a s' in (t ++ t', s'', o)
    | (t, s', Raise e) => (t, s', Raise e)
    | (t, s', SystemExit c) => (t, s', SystemExit c)
    end.

Notation "x <- m ;; k" := (bind m (fun x => k))
  (at level 100, m at next level, right associativity).
Notation "m ;; k" := (bind m (fun _ => k))
  (at level 100, right associativity).

Definition get {S : Type} : M S S :=
  fun s => ([], s, Return s).

Definition modify {S : Type} (f : S -> S) : M S unit :=
  fun s => ([], f s, Return tt).

Definition emit {S : Type} (ev : Event) : M S unit :=
  fun s => ([ev], s, Return tt).

Definition raise {S A : Type} (e : Exn) : M S A :=
  fun s => ([], s, Raise e).

(** [exit(code)]: raises [SystemExit(code)]. *)
Definition exit {S A : Type} (code : Z) : M S A :=
  fun s => ([], s, SystemExit code).

Definition when {S : Type} (b : bool) (m : M S unit) : M S unit :=
  if b then m else ret tt.

(** An external operation that answers with a value or raises. *)
Definition answer {S A : Type} (r : Exn + A) : M S A :=
  match r with
  | inl e => raise e
  | inr a => ret a
  end.

(** [try: body  except ... as e: handler e].  The handler starts from the
    local variables as the body left them when it raised. *)
Definition try_except {S A : Type} (body : M S A) (handler : Exn -> M S A)
  : M S A :=
  fun s =>
    match body s with
    | (t, s', Raise e) =>
        let '(t', s'', o) := handler e s' in (t ++ t', s'', o)
    | r => r
    end.

(** Calling a function from inside a block: the callee has its own local
    variables, the caller's are untouched. *)
Definition call {S A : Type} (r : Res A) : M S A :=
  fun s => (fst r, s, snd r).

(** A function body run from its initial local variables. *)
Definition run {S A : Type} (s0 : S) (m : M S A) : Res A :=
  let '(t, _, o) := m s0 in (t, o).

(** Reading a local variable; [None] is a variable not yet assigned. *)
Definition read {S A : Type} (name : string) (proj : S -> option A) : M S A :=
  s <- get ;;
  match proj s with
  | Some a => ret a
  | None => raise (UnboundLocalError name)
  end.

(** [for x in l: f x]. *)
Fixpoint for_each {S A : Type} (l : list A) (f : A -> M S unit) : M S unit :=
  match l with
  | [] => ret tt
  | x :: l' => f x ;; for_each l' f
  end.

Definition log {S : Type} (level : Level) (msg : string) : M S unit :=
  emit (Log level msg false).

(** A logger call with [exc_info=1], made while [handling] is the
    exception being handled: the record carries its traceback, or none. *)
Definition log_exc_info {S : Type} (level : Level) (msg : string)
           (handling : option Exn) : M S unit :=
  emit (Log level msg (ExcInfoOf handling)).

(** [assert cond, msg]. *)
Definition assert {S : Type} (cond : bool) (msg : string) : M S unit :=
  if cond then ret tt else raise (AssertionError msg).

Definition trace {A : Type} (r : Res A) : list Event := fst r.
Definition outcome {A : Type} (r : Res A) : Outcome A := snd r.

(* ===================================================================== *)
(** * The outside world *)
(* ===================================================================== *)

Inductive TorchDtype : Type :=
| float16
| bfloat16
| float32.

Definition dtype_str (d : TorchDtype) : string :=
  match d with
  | float16 => "torch.float16"
  | bfloat16 => "torch.bfloat16"
  | float32 => "torch.float32"
  end.

Definition dtype_eqb (a b : TorchDtype) : bool :=
  match a, b with
  | float16, float16 | bfloat16, bfloat16 | float32, float32 => true
  | _, _ => false
  end.

(** The configuration object [AutoConfig.from_pretrained] returns, as far
    as this module looks into it: the two attributes read with [getattr].
    [None] is an attribute the object does not have.  A
    [quantization_config] that is present is a [dict], as in a
    configuration loaded from the [config.json] of a model; an object on
    which the attribute holds something else (on which
    [quantization_config.get] at line 130 would raise, outside any [try])
    has no counterpart here. *)
Module HfConfig.
Record t : Type := mk {
  quantization_config : option (gmap string PyVal);
  transformers_version : option string
}.
End HfConfig.

(** The engine's model configuration; only its [dtype] is read here. *)
Module ModelConfig.
Record t : Type := mk {
  dtype : TorchDtype
}.
End ModelConfig.

(** One oracle per external operation.  An import answers [None] when it
    succeeds and [Some e] when it raises [e]; the other operations answer
    with their value or with the exception they raise. *)
Record Env : Type := mkEnv {
  (** [import name] *)
  env_import : string -> option Exn;
  (** the tensor addition and [assert_close] of [check_env_torch] *)
  env_torch_smoke : option Exn;
  (** [triton.__version__] *)
  env_triton_version : string;
  (** the [custom_add] kernel run and [assert_close] of [check_env_triton] *)
  env_triton_smoke : option Exn;
  (** [torch.cuda.get_device_capability()] *)
  env_device_capability : Exn + (Z * Z);
  (** [transformers.__version__] *)
  env_transformers_version : string;
  (** [version.parse] on a string that is not a plain release *)
  env_parse_other : string -> Exn + Version.t;
  (** [AutoConfig.from_pretrained(model_path, trust_remote_code=...)] *)
  env_AutoConfig_from_pretrained : string -> bool -> Exn + HfConfig.t;
  (** [ModelConfig.from_hf_config(config, model_path=..., dtype=...)] *)
  env_from_hf_config : HfConfig.t -> string -> string -> Exn + ModelConfig.t;
  (** [is_bf16_supported(device_type)] *)
  env_is_bf16_supported : string -> Exn + bool;
  (** [PeftConfig.from_pretrained(path)] *)
  env_PeftConfig_from_pretrained : string -> option Exn;
  (** [sys.exc_info()] when the module is entered: the exception the
      caller is handling, [None] when it calls from outside any [except]
      block *)
  env_exc_info : option Exn
}.

Definition import {S : Type} (env : Env) (module : string) : M S unit :=
  emit (Import module) ;;
  match env_import env module with
  | None => ret tt
  | Some e => raise e
  end.

(** An external call that returns nothing of interest. *)
Definition perform {S : Type} (fn : string) (args : list string)
           (r : option Exn) : M S unit :=
  emit (Call fn args) ;;
  match r with
  | None => ret tt
  | Some e => raise e
  end.

(** An external call with a result. *)
Definition ask {S A : Type} (fn : string) (args : list string)
           (r : Exn + A) : M S A :=
  emit (Call fn args) ;; answer r.

(** [version.parse(s)].  A plain release is parsed here; any other string
    is left to the environment, which answers with the parsed version or
    with the [InvalidVersion] the library raises. *)
Definition parse_version (env : Env) (s : string) : Exn + Version.t :=
  match Version.parse_release s with
  | Some r => inr (Version.of_release r)
  | None => env_parse_other env s
  end.

Definition version_parse {S : Type} (env : Env) (s : string) : M S Version.t :=
  answer (parse_version env s).

Definition bool_str (b : bool) : string := if b then "True" else "False".

(* ===================================================================== *)
(** * The module *)
(* ===================================================================== *)

(** ** The diagnostic reporter *)

(** [_handle_exception(e, mod_name, logger, message=None)], called while
    [handling] is the exception being handled.  The debug record takes its
    exception information from there ([exc_info=1]), not from [e].  The
    function has no [return]: were [exit] to come back, it would return
    [None]. *)
Definition _handle_exception (handling : option Exn) (e : Exn)
           (mod_name : string) (message : PyVal) : Res unit :=
  run tt (
    let red_color := esc +:+ "[31m" in
    let reset_color := esc +:+ "[0m" in
    let message :=
      if is_None message
      then PStr "Please ensure it has been installed correctly."
      else message in
    log_exc_info DEBUG "Exception" handling ;;
    log ERROR (exc_type e +:+ ": " +:+ exc_str e) ;;
    log ERROR (red_color +:+
               "<" +:+ mod_name +:+ "> test failed!" +:+ nl +:+
               py_str message +:+
               reset_color) ;;
    exit 1).

(** ** Backend capability probe *)

Definition try_import_deeplink (env : Env) (device_type : string) : Res unit :=
  run tt (
    let deeplink_device_type_list := ["ascend"; "npu"; "maca"] in
    if existsb (String.eqb device_type) deeplink_device_type_list then
      try_except
        (import env "dlinfer.framework.lmdeploy_ext")
        (fun e => call (_handle_exception (Some e) e "PyTorch" PNone))
    else ret tt).

Definition check_env_deeplink (env : Env) (device_type : string) : Res unit :=
  run tt (call (try_import_deeplink env device_type)).

(** ** Runtime smoke test *)

Definition check_env_torch (env : Env) : Res unit :=
  run tt (
    try_except
      (log DEBUG "Checking <PyTorch> environment." ;;
       import env "torch" ;;
       perform "torch.testing.assert_close" ["c"; "a.new_tensor([4, 6])"]
               (env_torch_smoke env))
      (fun e => call (_handle_exception (Some e) e "PyTorch" PNone))).

(** ** Kernel-compiler probe *)

Definition MAX_TRITON_VERSION : string := "3.0.0".

Record TritonLocals : Type := mkTritonLocals {
  l_msg : string;
  l_torch : option unit;
  l_triton_version : option Version.t
}.

Definition set_msg (m : string) (l : TritonLocals) : TritonLocals :=
  mkTritonLocals m (l_torch l) (l_triton_version l).
Definition set_torch (l : TritonLocals) : TritonLocals :=
  mkTritonLocals (l_msg l) (Some tt) (l_triton_version l).
Definition set_triton_version (v : Version.t) (l : TritonLocals) : TritonLocals :=
  mkTritonLocals (l_msg l) (l_torch l) (Some v).

Definition triton_msg : string :=
  "Please ensure that your device is functioning properly with <Triton>." +:+ nl +:+
  "You can verify your environment by running " +:+
  "`python -m lmdeploy.pytorch.check_env.triton_custom_add`.".

Definition ptxas_error : string := "device kernel image is invalid".

Definition ptxas_msg : string :=
  "This Error might caused by mismatching between NVIDIA Driver and nvcc compiler. " +:+ nl +:+
  "Try solution https://github.com/triton-lang/triton/issues/1955#issuecomment-1929908209" +:+
  " or reinstall the driver.".

Definition capability_error : Exn :=
  RuntimeError ("Attention triton kernel does not fully support " +:+
                "triton<3.0.0 on device with capability<8. " +:+
                "Please upgrade your triton version.").

(** The body of the [try] statement: version bound, then the custom-kernel
    smoke test. *)
Definition check_env_triton_try (env : Env) : M TritonLocals unit :=
  log DEBUG "Checking <Triton> environment." ;;
  import env "torch" ;;
  modify set_torch ;;
  import env "triton" ;;
  triton_version <- version_parse env (env_triton_version env) ;;
  modify (set_triton_version triton_version) ;;
  max_version <- version_parse env MAX_TRITON_VERSION ;;
  when (Version.gtb triton_version max_version)
       (log WARNING ("Engine has not been tested on triton>" +:+
                     MAX_TRITON_VERSION +:+ ".")) ;;
  import env ".triton_custom_add" ;;
  perform "torch.testing.assert_close" ["c"; "a + b"] (env_triton_smoke env).

(** [len(e.args) > 0 and ptxas_error in e.args[0]] *)
Definition has_ptxas_error {S : Type} (e : Exn) : M S bool :=
  match exc_args e with
  | [] => ret false
  | arg0 :: _ => answer (py_in ptxas_error arg0)
  end.

Definition check_env_triton_except (e : Exn) : M TritonLocals unit :=
  if is_RuntimeError e then
    found <- has_ptxas_error e ;;
    when found (modify (set_msg ptxas_msg)) ;;
    l <- get ;;
    call (_handle_exception (Some e) e "Triton" (PStr (l_msg l)))
  else
    l <- get ;;
    call (_handle_exception (Some e) e "Triton" (PStr (l_msg l))).

(** The statements after the [try] statement. *)
Definition check_env_triton_capability (env : Env) (device : string)
  : M TritonLocals unit :=
  if String.eqb device "cuda" then
    read "torch" l_torch ;;
    device_cap <- ask "torch.cuda.get_device_capability" []
                      (env_device_capability env) ;;
    TRITON_VER_231 <- version_parse env "2.3.1" ;;
    if (fst device_cap <=? 7)%Z then
      triton_version <- read "triton_version" l_triton_version ;;
      if Version.leb triton_version TRITON_VER_231 then
        let err := capability_error in
        call (_handle_exception (env_exc_info env) err "Triton" PNone)
      else ret tt
    else ret tt
  else ret tt.

(** The local variables on entry: only [msg] is assigned. *)
Definition triton_locals0 : TritonLocals := mkTritonLocals triton_msg None None.

Definition check_env_triton (env : Env) (device : string) : Res unit :=
  run triton_locals0 (
    try_except (check_env_triton_try env) check_env_triton_except ;;
    check_env_triton_capability env device).

Definition check_env (env : Env) (device_type : string) : Res unit :=
  run tt (
    log INFO "Checking environment for PyTorch Engine." ;;
    call (check_env_deeplink env device_type) ;;
    call (check_env_torch env) ;;
    if String.eqb device_type "cuda" then
      call (check_env_triton env "cuda")
    else ret tt).

(** ** Quantization extension probe *)

Definition MIN_TRANSFORMERS_VERSION : string := "4.33.0".
Definition MAX_TRANSFORMERS_VERSION : string := "4.44.1".

Definition check_awq (env : Env) (hf_config : HfConfig.t) (device_type : string)
  : Res unit :=
  run tt (
    if String.eqb device_type "cuda" then
      let quantization_config :=
        default (∅ : gmap string PyVal) (HfConfig.quantization_config hf_config) in
      let quant_method := default PNone (quantization_config !! "quant_method") in
      if negb (eq_str "awq" quant_method) then ret tt
      else
        try_except
          (import env "awq")
          (fun e => call (_handle_exception (Some e) e "autoawq" PNone)) ;;
        try_except
          (import env "awq_ext")
          (fun e =>
             log_exc_info DEBUG "Exception:" (Some e) ;;
             log WARNING ("Failed to import `awq_ext`. " +:+
                          "Try reinstall it from source: " +:+
                          "https://github.com/casper-hansen/AutoAWQ_kernels"))
    else ret tt).

(** ** Model and configuration probe *)

(** The functions nested in [check_transformers_version] close over its
    arguments; here they take the ones they use as parameters. *)

Record VersionLocals : Type := mkVersionLocals {
  l_transformers : option unit;
  (** [None] is Python's [None], the value the variable starts with *)
  l_trans_version : option Version.t
}.

Definition opt_version_str (v : option Version.t) : string :=
  match v with
  | None => "None"
  | Some v => Version.str v
  end.

Definition __check_transformers_version (env : Env)
  : Res (unit * option Version.t) :=
  run (mkVersionLocals None None) (
    log DEBUG "Checking <transformers> version." ;;
    modify (fun l => mkVersionLocals (l_transformers l) None) ;;
    try_except
      (import env "transformers" ;;
       modify (fun l => mkVersionLocals (Some tt) (l_trans_version l)) ;;
       trans_version <- version_parse env (env_transformers_version env) ;;
       modify (fun l => mkVersionLocals (l_transformers l) (Some trans_version)) ;;
       min_version <- version_parse env MIN_TRANSFORMERS_VERSION ;;
       max_version <- version_parse env MAX_TRANSFORMERS_VERSION ;;
       when (Version.ltb trans_version min_version
             || Version.gtb trans_version max_version)
            (log WARNING ("LMDeploy requires transformers version: " +:+
                          "[" +:+ MIN_TRANSFORMERS_VERSION +:+ " ~ " +:+
                          MAX_TRANSFORMERS_VERSION +:+ "], " +:+
                          "but found version: " +:+
                          env_transformers_version env)))
      (fun e => call (_handle_exception (Some e) e "transformers" PNone)) ;;
    transformers <- read "transformers" l_transformers ;;
    l <- get ;;
    ret (transformers, l_trans_version l)).

Definition __check_config (env : Env) (model_path : string)
           (trust_remote_code : bool) (trans_version : option Version.t)
  : Res HfConfig.t :=
  run (None : option HfConfig.t) (
    log DEBUG "Checking <Model> AutoConfig.from_pretrained." ;;
    try_except
      (import env "transformers" ;;
       config <- ask "AutoConfig.from_pretrained"
                     [model_path; bool_str trust_remote_code]
                     (env_AutoConfig_from_pretrained env model_path
                                                     trust_remote_code) ;;
       modify (fun _ => Some config))
      (fun e =>
         let message :=
           "Load model config with transformers==" +:+
           opt_version_str trans_version +:+
           " failed. " +:+
           "Please make sure model can be loaded with transformers API." in
         call (_handle_exception (Some e) e "transformers" (PStr message))) ;;
    read "config" id).

(** The values [model_trans_version] takes: what [getattr] returned, then
    the parsed version. *)
Inductive VersionValue : Type :=
| VNone
| VRaw (s : string)
| VParsed (v : Version.t).

Definition version_value_str (v : VersionValue) : string :=
  match v with
  | VNone => "None"
  | VRaw s => s
  | VParsed v => Version.str v
  end.

(** [trans_version >= model_trans_version]; [None] is not ordered against
    a version. *)
Definition version_ge {S : Type} (a : option Version.t) (b : Version.t)
  : M S bool :=
  match a with
  | Some a => ret (Version.geb a b)
  | None => raise (TypeError ("'>=' not supported between instances of " +:+
                              "'NoneType' and 'Version'"))
  end.

Definition __check_model_transformers_version (env : Env) (model_path : string)
           (config : HfConfig.t) (trans_version : option Version.t) : Res unit :=
  run (None : option VersionValue) (
    log DEBUG "Checking <Model> required transformers version." ;;
    try_except
      (match HfConfig.transformers_version config with
       | None => modify (fun _ => Some VNone)
       | Some s =>
           modify (fun _ => Some (VRaw s)) ;;
           model_trans_version <- version_parse env s ;;
           modify (fun _ => Some (VParsed model_trans_version)) ;;
           ok <- version_ge trans_version model_trans_version ;;
           assert ok "Version mismatch."
       end)
      (fun e =>
         model_trans_version <- read "model_trans_version" id ;;
         let message :=
           "model `" +:+ model_path +:+ "` requires " +:+
           "transformers version " +:+
           version_value_str model_trans_version +:+ " " +:+
           "but transformers " +:+ opt_version_str trans_version +:+
           " is installed." in
         call (_handle_exception (Some e) e "transformers" (PStr message)))).

Definition __check_model_dtype_support (env : Env) (model_path dtype : string)
           (config : HfConfig.t) (device_type : string) : Res ModelConfig.t :=
  run (None : option ModelConfig.t) (
    log DEBUG "Checking <Model> dtype support." ;;
    import env "torch" ;;
    import env "lmdeploy.pytorch.config" ;;
    import env "lmdeploy.utils" ;;
    try_except
      (model_config <- ask "ModelConfig.from_hf_config" [model_path; dtype]
                           (env_from_hf_config env config model_path dtype) ;;
       modify (fun _ => Some model_config) ;;
       if dtype_eqb (ModelConfig.dtype model_config) bfloat16 then
         supported <- ask "is_bf16_supported" [device_type]
                          (env_is_bf16_supported env device_type) ;;
         assert supported "bf16 is not supported on your device"
       else ret tt)
      (fun e =>
         if is_AssertionError e then
           model_config <- read "model_config" id ;;
           let message :=
             "Your device does not support `" +:+
             dtype_str (ModelConfig.dtype model_config) +:+ "`. " +:+
             "You can set `dtype` to float16 in PyTorchEngineConfig or " +:+
             "`--dtype float16` to api_server." +:+ nl +:+
             "Note that this might have negative effect!" in
           call (_handle_exception (Some e) e "Model" (PStr message))
         else
           let message :=
             PTuple [PStr ("Checking failed with error " +:+ exc_str e);
                     PStr "Please send issue to LMDeploy with error logs."] in
           call (_handle_exception (Some e) e "Model" message)) ;;
    read "model_config" id).

Definition check_transformers_version (env : Env) (model_path : string)
           (trust_remote_code : bool) (dtype device_type : string) : Res unit :=
  run tt (
    r <- call (__check_transformers_version env) ;;
    let trans_version := snd r in
    config <- call (__check_config env model_path trust_remote_code
                                   trans_version) ;;
    call (__check_model_transformers_version env model_path config
                                             trans_version) ;;
    call (__check_model_dtype_support env model_path dtype config
                                      device_type) ;;
    call (check_awq env config device_type)).

Definition check_model (env : Env) (model_path : string)
           (trust_remote_code : bool) (dtype device_type : string) : Res unit :=
  run tt (
    log INFO "Checking model." ;;
    call (check_transformers_version env model_path trust_remote_code dtype
                                     device_type)).

(** ** Adapter probe *)

Definition adapter_msg : string :=
  "Please make sure the adapter can be loaded with " +:+
  "`peft.PeftConfig.from_pretrained`" +:+ nl.

Definition adapter_hint : string :=
  "Or try remove all unexpected keywords " +:+
  "in `adapter_config.json`.".

(** The body of the [try] statement. *)
Definition check_adapter_try (env : Env) (path : string) : M unit unit :=
  import env "peft" ;;
  perform "PeftConfig.from_pretrained" [path]
          (env_PeftConfig_from_pretrained env path).

Definition check_adapter_except (e : Exn) : M unit unit :=
  let message := adapter_msg in
  let err_msg :=
    match exc_args e with
    | [] => PStr ""
    | arg0 :: _ => arg0
    end in
  found <- answer (py_in "got an unexpected keyword argument" err_msg) ;;
  let message := if found then message +:+ adapter_hint else message in
  call (_handle_exception (Some e) e "Model" (PStr message)).

Definition check_adapter (env : Env) (path : string) : Res unit :=
  run tt (
    log DEBUG ("Checking <Adapter>: " +:+ path +:+ ".") ;;
    try_except (check_adapter_try env path) check_adapter_except).

Definition check_adapters (env : Env) (adapter_paths : list string) : Res unit :=
  run tt (
    if (length adapter_paths <=? 0)%nat then ret tt
    else
      log INFO "Checking adapters." ;;
      for_each adapter_paths (fun path => call (check_adapter env path))).

(* ===================================================================== *)
(** * Vocabulary of the properties *)
(* ===================================================================== *)

(** [wp m Q E s]: run from the local variables [s], the block [m] ends
    normally in a state satisfying [Q], or raises in a state satisfying
    [E].  Nothing is asked of a run that leaves through [exit]. *)
Definition wp {S A : Type} (m : M S A) (Q : A -> S -> Prop)
           (E : Exn -> S -> Prop) (s : S) : Prop :=
  match m s with
  | (_, s', Return a) => Q a s'
  | (_, s', Raise e) => E e s'
  | (_, _, SystemExit _) => True
  end.

(** Some record of the run is at warning level. *)
Definition warned {A : Type} (r : Res A) : Prop :=
  exists msg exc_info, In (Log WARNING msg exc_info) (trace r).

(** The run came back to its caller or ended the process with status 1:
    no exception left it. *)
Definition settled {A : Type} (r : Res A) : Prop :=
  (exists a, outcome r = Return a) \/ outcome r = SystemExit 1.

Definition generic_remediation : string :=
  "Please ensure it has been installed correctly.".

(** ** Kernel-compiler probe *)

Definition v231 : Version.t := Version.of_release [2; 3; 1]%N.

(** The first argument of the exception is text that has the driver
    mismatch signature in it. *)
Definition ptxas_in_text (e : Exn) : bool :=
  match exc_args e with
  | PStr s :: _ => is_substring ptxas_error s
  | _ => false
  end.

(** The exception has no arguments, or its first argument is text. *)
Definition textual (e : Exn) : bool :=
  match exc_args e with
  | [] | PStr _ :: _ => true
  | _ => false
  end.

Definition triton_remediation (e : Exn) : string :=
  if is_RuntimeError e && ptxas_in_text e then ptxas_msg else triton_msg.

(** ** Model and configuration probe *)

Definition v4_33_0 : Version.t := Version.of_release [4; 33; 0]%N.
Definition v4_44_1 : Version.t := Version.of_release [4; 44; 1]%N.
Definition v4_50_0 : Version.t := Version.of_release [4; 50; 0]%N.

Definition version_checked : list Event :=
  [Log DEBUG "Checking <transformers> version." false; Import "transformers"].

Definition version_warning (found : string) : Event :=
  Log WARNING ("LMDeploy requires transformers version: [4.33.0 ~ 4.44.1], " +:+
               "but found version: " +:+ found) false.

Definition outside_range (v : Version.t) : bool :=
  Version.ltb v v4_33_0 || Version.gtb v v4_44_1.

Definition config_checked (model_path : string) (trust_remote_code : bool)
  : list Event :=
  [Log DEBUG "Checking <Model> AutoConfig.from_pretrained." false;
   Import "transformers";
   Call "AutoConfig.from_pretrained" [model_path; bool_str trust_remote_code]].

Definition model_version_checking : Event :=
  Log DEBUG "Checking <Model> required transformers version." false.

Definition mismatch_message (model_path : string)
           (required installed : Version.t) : string :=
  "model `" +:+ model_path +:+ "` requires transformers version " +:+
  Version.str required +:+ " but transformers " +:+ Version.str installed +:+
  " is installed.".

(** ** Quantization extension probe *)

(** The configuration has a quantization section whose [quant_method] is
    ['awq']. *)
Definition declares_awq (cfg : HfConfig.t) : Prop :=
  exists section : gmap string PyVal,
    HfConfig.quantization_config cfg = Some section /\
    section !! "quant_method" = Some (PStr "awq").

Definition awq_ext_warning : Event :=
  Log WARNING ("Failed to import `awq_ext`. Try reinstall it from source: " +:+
               "https://github.com/casper-hansen/AutoAWQ_kernels") false.

(** ** Adapter probe *)

Definition adapter_checking (path : string) : Event :=
  Log DEBUG ("Checking <Adapter>: " +:+ path +:+ ".") false.

Definition keyword_signature : string := "got an unexpected keyword argument".

(** The first argument of the exception is text that has the unexpected
    keyword signature in it. *)
Definition keyword_in_text (e : Exn) : bool :=
  match exc_args e with
  | PStr s :: _ => is_substring keyword_signature s
  | _ => false
  end.

(* ===================================================================== *)
(** * Sample environments *)
(* ===================================================================== *)

(** What [packaging] raises on a string that is not a version. *)
Definition InvalidVersion (s : string) : Exn :=
  let msg := "Invalid version: " +:+ repr_str s in
  mkExn "InvalidVersion" FException [PStr msg] msg.

(** A host on which every probe passes: triton 3.0.0 on a device of
    capability 8.0, transformers 4.44.1, a float16 model without
    quantization. *)
Definition env_healthy : Env := {|
  env_exc_info := None;
  env_import := fun _ => None;
  env_torch_smoke := None;
  env_triton_version := "3.0.0";
  env_triton_smoke := None;
  env_device_capability := inr (8, 0)%Z;
  env_transformers_version := "4.44.1";
  env_parse_other := fun s => inl (InvalidVersion s);
  env_AutoConfig_from_pretrained := fun _ _ => inr (HfConfig.mk None None);
  env_from_hf_config := fun _ _ _ => inr (ModelConfig.mk float16);
  env_is_bf16_supported := fun _ => inr true;
  env_PeftConfig_from_pretrained := fun _ => None
|}.

(** The healthy host with another triton version and device capability. *)
Definition env_triton (version : string) (cap : Z * Z) : Env := {|
  env_exc_info := None;
  env_import := env_import env_healthy;
  env_torch_smoke := None;
  env_triton_version := version;
  env_triton_smoke := None;
  env_device_capability := inr cap;
  env_transformers_version := env_transformers_version env_healthy;
  env_parse_other := env_parse_other env_healthy;
  env_AutoConfig_from_pretrained := env_AutoConfig_from_pretrained env_healthy;
  env_from_hf_config := env_from_hf_config env_healthy;
  env_is_bf16_supported := env_is_bf16_supported env_healthy;
  env_PeftConfig_from_pretrained := env_PeftConfig_from_pretrained env_healthy
|}.

(** The healthy host on which the custom-kernel smoke test raises [e]. *)
Definition env_triton_fails (e : Exn) : Env := {|
  env_exc_info := None;
  env_import := env_import env_healthy;
  env_torch_smoke := None;
  env_triton_version := env_triton_version env_healthy;
  env_triton_smoke := Some e;
  env_device_capability := env_device_capability env_healthy;
  env_transformers_version := env_transformers_version env_healthy;
  env_parse_other := env_parse_other env_healthy;
  env_AutoConfig_from_pretrained := env_AutoConfig_from_pretrained env_healthy;
  env_from_hf_config := env_from_hf_config env_healthy;
  env_is_bf16_supported := env_is_bf16_supported env_healthy;
  env_PeftConfig_from_pretrained := env_PeftConfig_from_pretrained env_healthy
|}.

(** A failure that carries the driver mismatch text but is not a
    [RuntimeError]. *)
Definition kernel_image_exception : Exn :=
  mkExn "Exception" FException [PStr "device kernel image is invalid"]
        "device kernel image is invalid".

(** The failure triton reports on a driver and compiler mismatch. *)
Definition kernel_image_error : Exn :=
  RuntimeError "Triton Error [CUDA]: device kernel image is invalid".

(** The healthy host on which loading an adapter configuration raises
    [e]. *)
Definition env_adapter_fails (e : Exn) : Env := {|
  env_exc_info := None;
  env_import := env_import env_healthy;
  env_torch_smoke := None;
  env_triton_version := env_triton_version env_healthy;
  env_triton_smoke := None;
  env_device_capability := env_device_capability env_healthy;
  env_transformers_version := env_transformers_version env_healthy;
  env_parse_other := env_parse_other env_healthy;
  env_AutoConfig_from_pretrained := env_AutoConfig_from_pretrained env_healthy;
  env_from_hf_config := env_from_hf_config env_healthy;
  env_is_bf16_supported := env_is_bf16_supported env_healthy;
  env_PeftConfig_from_pretrained := fun _ => Some e
|}.

(** [open] on an adapter configuration file the process may not read:
    the arguments of an [OSError] are the error number and its text. *)
Definition permission_error : Exn :=
  mkExn "PermissionError" FException
        [PInt 13; PStr "Permission denied"]
        "[Errno 13] Permission denied: 'adapter/adapter_config.json'".

(** What an [assert] statement without a message raises. *)
Definition bare_assertion : Exn :=
  mkExn "AssertionError" FAssertionError [] "".

(** An exception raised without arguments. *)
Definition bare_error : Exn :=
  mkExn "NotImplementedError" FRuntimeError [] "".

(** The healthy host with a model whose configuration is [cfg], and on
    which deriving the engine's model configuration answers [mc]. *)
Definition env_model (cfg : HfConfig.t) (mc : Exn + ModelConfig.t) : Env := {|
  env_exc_info := None;
  env_import := env_import env_healthy;
  env_torch_smoke := None;
  env_triton_version := env_triton_version env_healthy;
  env_triton_smoke := None;
  env_device_capability := env_device_capability env_healthy;
  env_transformers_version := env_transformers_version env_healthy;
  env_parse_other := env_parse_other env_healthy;
  env_AutoConfig_from_pretrained := fun _ _ => inr cfg;
  env_from_hf_config := fun _ _ _ => mc;
  env_is_bf16_supported := env_is_bf16_supported env_healthy;
  env_PeftConfig_from_pretrained := env_PeftConfig_from_pretrained env_healthy
|}.

(** What [import name] raises for a module that is not installed. *)
Definition ModuleNotFoundError (name : string) : Exn :=
  mkExn "ModuleNotFoundError" FException
        [PStr ("No module named " +:+ repr_str name)]
        ("No module named " +:+ repr_str name).

(** The healthy host on which the modules in [missing] cannot be
    imported. *)
Definition env_missing (missing : list string) : Env := {|
  env_exc_info := None;
  env_import := fun name =>
    if existsb (String.eqb name) missing
    then Some (ModuleNotFoundError name)
    else None;
  env_torch_smoke := None;
  env_triton_version := env_triton_version env_healthy;
  env_triton_smoke := None;
  env_device_capability := env_device_capability env_healthy;
  env_transformers_version := env_transformers_version env_healthy;
  env_parse_other := env_parse_other env_healthy;
  env_AutoConfig_from_pretrained := env_AutoConfig_from_pretrained env_healthy;
  env_from_hf_config := env_from_hf_config env_healthy;
  env_is_bf16_supported := env_is_bf16_supported env_healthy;
  env_PeftConfig_from_pretrained := env_PeftConfig_from_pretrained env_healthy
|}.

(** The healthy host with transformers 4.32.1 installed. *)
Definition env_old_transformers : Env := {|
  env_exc_info := None;
  env_import := env_import env_healthy;
  env_torch_smoke := None;
  env_triton_version := env_triton_version env_healthy;
  env_triton_smoke := None;
  env_device_capability := env_device_capability env_healthy;
  env_transformers_version := "4.32.1";
  env_parse_other := env_parse_other env_healthy;
  env_AutoConfig_from_pretrained := env_AutoConfig_from_pretrained env_healthy;
  env_from_hf_config := env_from_hf_config env_healthy;
  env_is_bf16_supported := env_is_bf16_supported env_healthy;
  env_PeftConfig_from_pretrained := env_PeftConfig_from_pretrained env_healthy
|}.

Definition cfg_plain : HfConfig.t := HfConfig.mk None None.

Definition cfg_awq : HfConfig.t :=
  HfConfig.mk (Some {[ "quant_method" := PStr "awq" ]}) None.

Definition cfg_requires (version : string) : HfConfig.t :=
  HfConfig.mk None (Some version).

(* ===================================================================== *)
(** * Vocabulary of the further properties *)
(* ===================================================================== *)

(** The trace ends with the three records of a diagnostic report. *)
Definition ends_with_report (t : list Event) : Prop :=
  exists t0 handling e mod_name message,
    t = t0 ++ trace (_handle_exception handling e mod_name message).

(** A block that leaves through [exit] does so with status 1, right after
    a diagnostic report. *)
Definition exits_reported {S A : Type} (m : M S A) : Prop :=
  forall s t s' c,
    m s = (t, s', SystemExit c) -> c = 1%Z /\ ends_with_report t.

(** The same of a function call. *)
Definition exit_reported {A : Type} (r : Res A) : Prop :=
  forall c,
    outcome r = SystemExit c -> c = 1%Z /\ ends_with_report (trace r).

(** What [check_adapter] does on an adapter whose configuration loads. *)
Definition adapter_loaded (path : string) : list Event :=
  [adapter_checking path; Import "peft";
   Call "PeftConfig.from_pretrained" [path]].

(** ** Backend and runtime probes *)

Definition deeplink_module : string := "dlinfer.framework.lmdeploy_ext".

Definition is_deeplink_device (device_type : string) : bool :=
  String.eqb device_type "ascend" || String.eqb device_type "npu" ||
  String.eqb device_type "maca".

Definition torch_checking : list Event :=
  [Log DEBUG "Checking <PyTorch> environment." false; Import "torch"].

Definition torch_smoke_test : Event :=
  Call "torch.testing.assert_close" ["c"; "a.new_tensor([4, 6])"].

(** ** Kernel-compiler probe *)

Definition v3_0_0 : Version.t := Version.of_release [3; 0; 0]%N.

Definition triton_version_warning : Event :=
  Log WARNING "Engine has not been tested on triton>3.0.0." false.

Definition triton_smoke_test : list Event :=
  [Import ".triton_custom_add";
   Call "torch.testing.assert_close" ["c"; "a + b"]].

Definition triton_checking : list Event :=
  [Log DEBUG "Checking <Triton> environment." false;
   Import "torch"; Import "triton"].

(** ** Model and configuration probe *)

Definition config_load_message (trans_version : option Version.t) : string :=
  "Load model config with transformers==" +:+ opt_version_str trans_version +:+
  " failed. Please make sure model can be loaded with transformers API.".

Definition unparsed_requirement_message (model_path declared : string)
           (trans_version : option Version.t) : string :=
  "model `" +:+ model_path +:+ "` requires transformers version " +:+
  declared +:+ " but transformers " +:+ opt_version_str trans_version +:+
  " is installed.".

Definition dtype_checked (model_path dtype : string) : list Event :=
  [Log DEBUG "Checking <Model> dtype support." false;
   Import "torch"; Import "lmdeploy.pytorch.config"; Import "lmdeploy.utils";
   Call "ModelConfig.from_hf_config" [model_path; dtype]].

Definition bf16_query (device_type : string) : Event :=
  Call "is_bf16_supported" [device_type].

Definition bf16_error : Exn :=
  AssertionError "bf16 is not supported on your device".

Definition bf16_message : string :=
  "Your device does not support `torch.bfloat16`. " +:+
  "You can set `dtype` to float16 in PyTorchEngineConfig or " +:+
  "`--dtype float16` to api_server." +:+ nl +:+
  "Note that this might have negative effect!".

(** The two strings the dtype check hands to the reporter, as a pair, on
    a failure that is not an assertion. *)
Definition dtype_failure_message (e : Exn) : PyVal :=
  PTuple [PStr ("Checking failed with error " +:+ exc_str e);
          PStr "Please send issue to LMDeploy with error logs."].

(** The imports the dtype check makes before its [try] statement all
    succeed. *)
Definition dtype_imports_ok (env : Env) : Prop :=
  env_import env "torch" = None /\
  env_import env "lmdeploy.pytorch.config" = None /\
  env_import env "lmdeploy.utils" = None.

(** The configuration declares no library version, or one that parses to
    a version [installed] is not below. *)
Definition requirement_met (env : Env) (cfg : HfConfig.t)
           (installed : Version.t) : Prop :=
  HfConfig.transformers_version cfg = None \/
  exists s required,
    HfConfig.transformers_version cfg = Some s /\
    parse_version env s = inr required /\
    Version.geb installed required = true.

(** No record of the trace is at error level. *)
Definition no_error_logged (t : list Event) : Prop :=
  forall msg exc_info, ~ In (Log ERROR msg exc_info) t.

(** The model's dtype is one the device can run: not bfloat16, or
    bfloat16 on a device that reports support for it. *)
Definition dtype_supported (env : Env) (mc : ModelConfig.t)
           (device_type : string) : Prop :=
  ModelConfig.dtype mc <> bfloat16 \/
  env_is_bf16_supported env device_type = inr true.

(** A block that does not leave through [exit] has logged nothing at
    error level. *)
Definition errors_mean_exit {S A : Type} (m : M S A) : Prop :=
  forall s t s' o,
    m s = (t, s', o) -> (forall c, o <> SystemExit c) -> no_error_logged t.

(** The same of a function call. *)
Definition error_means_exit {A : Type} (r : Res A) : Prop :=
  (forall c, outcome r <> SystemExit c) -> no_error_logged (trace r).

(** The healthy host on which the adapters in [broken] fail to load with
    [e], and every other adapter loads. *)
Definition env_adapters (broken : list string) (e : Exn) : Env := {|
  env_exc_info := None;
  env_import := env_import env_healthy;
  env_torch_smoke := None;
  env_triton_version := env_triton_version env_healthy;
  env_triton_smoke := None;
  env_device_capability := env_device_capability env_healthy;
  env_transformers_version := env_transformers_version env_healthy;
  env_parse_other := env_parse_other env_healthy;
  env_AutoConfig_from_pretrained := env_AutoConfig_from_pretrained env_healthy;
  env_from_hf_config := env_from_hf_config env_healthy;
  env_is_bf16_supported := env_is_bf16_supported env_healthy;
  env_PeftConfig_from_pretrained := fun path =>
    if existsb (String.eqb path) broken then Some e else None
|}.

(** What [peft] raises on a configuration file with a field its
    configuration class does not take. *)
Definition unexpected_keyword_error : Exn :=
  let msg := "LoraConfig.__init__() got an unexpected keyword argument 'use_dora'" in
  mkExn "TypeError" FException [PStr msg] msg.

(** What [peft] raises on a directory without a configuration file. *)
Definition missing_config_error : Exn :=
  let msg := "Can't find 'adapter_config.json' at 'adapter'" in
  mkExn "ValueError" FException [PStr msg] msg.

(** A [RuntimeError] raised with an error code as its first argument. *)
Definition coded_runtime_error : Exn :=
  mkExn "RuntimeError" FRuntimeError [PInt 209; PStr "no kernel image"]
        "(209, 'no kernel image')".

(** The healthy host on which the device capability query raises [e]. *)
Definition env_capability_fails (e : Exn) : Env := {|
  env_exc_info := None;
  env_import := env_import env_healthy;
  env_torch_smoke := None;
  env_triton_version := env_triton_version env_healthy;
  env_triton_smoke := None;
  env_device_capability := inl e;
  env_transformers_version := env_transformers_version env_healthy;
  env_parse_other := env_parse_other env_healthy;
  env_AutoConfig_from_pretrained := env_AutoConfig_from_pretrained env_healthy;
  env_from_hf_config := env_from_hf_config env_healthy;
  env_is_bf16_supported := env_is_bf16_supported env_healthy;
  env_PeftConfig_from_pretrained := env_PeftConfig_from_pretrained env_healthy
|}.

(** The healthy host on which the runtime smoke test raises [e]. *)
Definition env_torch_fails (e : Exn) : Env := {|
  env_exc_info := None;
  env_import := env_import env_healthy;
  env_torch_smoke := Some e;
  env_triton_version := env_triton_version env_healthy;
  env_triton_smoke := None;
  env_device_capability := env_device_capability env_healthy;
  env_transformers_version := env_transformers_version env_healthy;
  env_parse_other := env_parse_other env_healthy;
  env_AutoConfig_from_pretrained := env_AutoConfig_from_pretrained env_healthy;
  env_from_hf_config := env_from_hf_config env_healthy;
  env_is_bf16_supported := env_is_bf16_supported env_healthy;
  env_PeftConfig_from_pretrained := env_PeftConfig_from_pretrained env_healthy
|}.

(** What [torch] raises when no accelerator is visible. *)
Definition no_cuda_error : Exn :=
  RuntimeError "No CUDA GPUs are available".

(** The healthy host with another [transformers.__version__]. *)
Definition env_transformers (version : string) : Env := {|
  env_exc_info := None;
  env_import := env_import env_healthy;
  env_torch_smoke := None;
  env_triton_version := env_triton_version env_healthy;
  env_triton_smoke := None;
  env_device_capability := env_device_capability env_healthy;
  env_transformers_version := version;
  env_parse_other := env_parse_other env_healthy;
  env_AutoConfig_from_pretrained := env_AutoConfig_from_pretrained env_healthy;
  env_from_hf_config := env_from_hf_config env_healthy;
  env_is_bf16_supported := env_is_bf16_supported env_healthy;
  env_PeftConfig_from_pretrained := env_PeftConfig_from_pretrained env_healthy
|}.

(** The healthy host on which loading the model configuration raises
    [e]. *)
Definition env_config_fails (e : Exn) : Env := {|
  env_exc_info := None;
  env_import := env_import env_healthy;
  env_torch_smoke := None;
  env_triton_version := env_triton_version env_healthy;
  env_triton_smoke := None;
  env_device_capability := env_device_capability env_healthy;
  env_transformers_version := env_transformers_version env_healthy;
  env_parse_other := env_parse_other env_healthy;
  env_AutoConfig_from_pretrained := fun _ _ => inl e;
  env_from_hf_config := env_from_hf_config env_healthy;
  env_is_bf16_supported := env_is_bf16_supported env_healthy;
  env_PeftConfig_from_pretrained := env_PeftConfig_from_pretrained env_healthy
|}.

(** The healthy host with a bfloat16 model, on a device that supports
    bfloat16 or not. *)
Definition env_bf16 (supported : bool) : Env := {|
  env_exc_info := None;
  env_import := env_import env_healthy;
  env_torch_smoke := None;
  env_triton_version := env_triton_version env_healthy;
  env_triton_smoke := None;
  env_device_capability := env_device_capability env_healthy;
  env_transformers_version := env_transformers_version env_healthy;
  env_parse_other := env_parse_other env_healthy;
  env_AutoConfig_from_pretrained := env_AutoConfig_from_pretrained env_healthy;
  env_from_hf_config := fun _ _ _ => inr (ModelConfig.mk bfloat16);
  env_is_bf16_supported := fun _ => inr supported;
  env_PeftConfig_from_pretrained := env_PeftConfig_from_pretrained env_healthy
|}.

(** What [transformers] raises on a model directory without a
    configuration file. *)
Definition config_not_found_error : Exn :=
  let msg := "/path/to/model does not appear to have a file named config.json." in
  mkExn "OSError" FException [PStr msg] msg.

(** A failure of the model configuration builder that is not an
    assertion. *)
Definition unsupported_model_error : Exn :=
  let msg := "unsupported model" in
  mkExn "ValueError" FException [PStr msg] msg.

(** [ValueError('bad\u00a0value')]: a failure whose text has a no-break
    space. *)
Definition no_break_space_error : Exn :=
  let msg := "bad" +:+ String (ascii_of_N 160) "value" in
  mkExn "ValueError" FException [PStr msg] msg.

(* ===================================================================== *)
(** * The version order *)
(* ===================================================================== *)

Module VersionFacts.
Import Version.

Lemma lex_opp (c1 c2 : comparison) :
  CompOpp (lex c1 c2) = lex (CompOpp c1) (CompOpp c2).
Proof. destruct c1; reflexivity. Qed.

Section Antisym.
Context {A : Type} (cmp : A -> A -> comparison).
Hypothesis cmp_antisym : forall x y, cmp x y = CompOpp (cmp y x).

Lemma cmp_tuple_antisym (xs ys : list A) :
  cmp_tuple cmp xs ys = CompOpp (cmp_tuple cmp ys xs).
Proof using cmp_antisym.
  revert ys; induction xs as [|x xs IH]; intros [|y ys]; simpl; try reflexivity.
  rewrite lex_opp, <- cmp_antisym, <- IH. reflexivity.
Qed.

Lemma cmp_ext_antisym (x y : Ext A) :
  cmp_ext cmp x y = CompOpp (cmp_ext cmp y x).
Proof using cmp_antisym.
  destruct x, y; simpl; try reflexivity. apply cmp_antisym.
Qed.
End Antisym.

Lemma N_compare_antisym (x y : N) : N.compare x y = CompOpp (N.compare y x).
Proof. apply N.compare_antisym. Qed.

Lemma cmp_pre_antisym (x y : PreTag * N) : cmp_pre x y = CompOpp (cmp_pre y x).
Proof.
  unfold cmp_pre. rewrite lex_opp, <- !N_compare_antisym. reflexivity.
Qed.

Lemma cmp_seg_antisym (x y : LocalSeg) : cmp_seg x y = CompOpp (cmp_seg y x).
Proof.
  destruct x, y; simpl; try reflexivity.
  - apply N_compare_antisym.
  - apply String.compare_antisym.
Qed.

(** Swapping the operands reverses the comparison. *)
Lemma compare_antisym (a b : t) : compare a b = CompOpp (compare b a).
Proof.
  unfold compare.
  rewrite !lex_opp.
  rewrite <- N_compare_antisym.
  rewrite <- (cmp_tuple_antisym N.compare N_compare_antisym).
  rewrite <- (cmp_ext_antisym cmp_pre cmp_pre_antisym).
  rewrite <- !(cmp_ext_antisym N.compare N_compare_antisym).
  rewrite <- (cmp_ext_antisym (cmp_tuple cmp_seg)
                              (cmp_tuple_antisym cmp_seg cmp_seg_antisym)).
  reflexivity.
Qed.

(** [a >= b] fails exactly when [b > a]. *)
Lemma geb_false_iff_gtb (a b : t) : geb a b = false <-> gtb b a = true.
Proof.
  unfold geb, gtb. rewrite (compare_antisym b a).
  destruct (compare a b); simpl; split; congruence.
Qed.

Lemma geb_true_iff_leb (a b : t) : geb a b = true <-> leb b a = true.
Proof.
  unfold geb, leb. rewrite (compare_antisym b a).
  destruct (compare a b); simpl; split; congruence.
Qed.

Lemma ltb_iff_gtb (a b : t) : ltb a b = true <-> gtb b a = true.
Proof.
  unfold ltb, gtb. rewrite (compare_antisym b a).
  destruct (compare a b); simpl; split; congruence.
Qed.

(** Trailing zeros of the release do not count. *)
Example release_padding :
  compare (of_release [2; 3; 1]%N) (of_release [2; 3; 1; 0]%N) = Eq.
Proof. reflexivity. Qed.

(** A development release sorts below the release it leads to. *)
Example dev_before_release :
  ltb (mk 0 [4; 45; 0]%N None None (Some 0%N) None) (of_release [4; 45; 0]%N)
  = true.
Proof. reflexivity. Qed.

End VersionFacts.

Lemma parse_version_plain (env : Env) (s : string) (r : list N) :
  Version.parse_release s = Some r ->
  parse_version env s = inr (Version.of_release r).
Proof. unfold parse_version. intros ->. reflexivity. Qed.

Lemma parse_MAX_TRITON_VERSION env :
  parse_version env MAX_TRITON_VERSION = inr (Version.of_release [3; 0; 0]%N).
Proof. apply parse_version_plain. reflexivity. Qed.

Lemma parse_2_3_1 env : parse_version env "2.3.1" = inr v231.
Proof. apply parse_version_plain. reflexivity. Qed.

Lemma parse_MIN_TRANSFORMERS_VERSION env :
  parse_version env MIN_TRANSFORMERS_VERSION = inr v4_33_0.
Proof. apply parse_version_plain. reflexivity. Qed.

Lemma parse_MAX_TRANSFORMERS_VERSION env :
  parse_version env MAX_TRANSFORMERS_VERSION = inr v4_44_1.
Proof. apply parse_version_plain. reflexivity. Qed.

(* ===================================================================== *)
(** * Reasoning about blocks *)
(* ===================================================================== *)

Section WpRules.
Context {S : Type}.
Implicit Types (s : S) (E : Exn -> S -> Prop).

Lemma wp_bind {A B} (m : M S A) (f : A -> M S B) Q E s :
  wp m (fun a s' => wp (f a) Q E s') E s -> wp (bind m f) Q E s.
Proof.
  unfold wp, bind. destruct (m s) as [[t s'] [a|e|c]]; auto.
  destruct (f a s') as [[t' s''] o]. auto.
Qed.

Lemma wp_ret {A} (a : A) (Q : A -> S -> Prop) E s : Q a s -> wp (ret a) Q E s.
Proof. auto. Qed.

Lemma wp_emit ev (Q : unit -> S -> Prop) E s : Q tt s -> wp (emit ev) Q E s.
Proof. auto. Qed.

Lemma wp_modify (f : S -> S) (Q : unit -> S -> Prop) E s :
  Q tt (f s) -> wp (modify f) Q E s.
Proof. auto. Qed.

Lemma wp_answer {A} (r : Exn + A) (Q : A -> S -> Prop) E s :
  (forall a, r = inr a -> Q a s) -> (forall e, r = inl e -> E e s) ->
  wp (answer r) Q E s.
Proof. destruct r; unfold wp; simpl; auto. Qed.

Lemma wp_import env name (Q : unit -> S -> Prop) E s :
  (env_import env name = None -> Q tt s) ->
  (forall e, env_import env name = Some e -> E e s) ->
  wp (import env name) Q E s.
Proof.
  unfold wp, import, bind, emit. destruct (env_import env name); simpl; auto.
Qed.

Lemma wp_perform fn args (r : option Exn) (Q : unit -> S -> Prop) E s :
  (r = None -> Q tt s) -> (forall e, r = Some e -> E e s) ->
  wp (perform fn args r) Q E s.
Proof. unfold wp, perform, bind, emit. destruct r; simpl; auto. Qed.

Lemma wp_when (b : bool) (m : M S unit) (Q : unit -> S -> Prop) E s :
  (b = true -> wp m Q E s) -> (b = false -> Q tt s) -> wp (when b m) Q E s.
Proof.
  destruct b; simpl; intros H1 H2; [apply H1|apply wp_ret, H2]; reflexivity.
Qed.

Lemma wp_Return {A} (m : M S A) Q E s t s' a :
  wp m Q E s -> m s = (t, s', Return a) -> Q a s'.
Proof. unfold wp. intros H Heq. rewrite Heq in H. exact H. Qed.

Lemma wp_Raise {A} (m : M S A) Q E s t s' e :
  wp m Q E s -> m s = (t, s', Raise e) -> E e s'.
Proof. unfold wp. intros H Heq. rewrite Heq in H. exact H. Qed.

End WpRules.

(** One step of a [wp] derivation, chosen by the head of the block. *)
Ltac wp_step :=
  cbv beta;
  lazymatch goal with
  | |- wp (bind _ _) _ _ _ => apply wp_bind
  | |- wp (ret _) _ _ _ => apply wp_ret
  | |- wp (emit _) _ _ _ => apply wp_emit
  | |- wp (log _ _) _ _ _ => apply wp_emit
  | |- wp (log_exc_info _ _ _) _ _ _ => apply wp_emit
  | |- wp (modify _) _ _ _ => apply wp_modify
  | |- wp (import _ _) _ _ _ => apply wp_import; [intros ?|intros ? ?]
  | |- wp (perform _ _ _) _ _ _ => apply wp_perform; [intros ?|intros ? ?]
  | |- wp (answer _) _ _ _ => apply wp_answer; [intros ? ?|intros ? ?]
  | |- wp (version_parse _ _) _ _ _ => apply wp_answer; [intros ? ?|intros ? ?]
  | |- wp (when _ _) _ _ _ => apply wp_when; [intros ?|intros ?]
  end.

(** Runs the control combinators of a block; oracles, strings and called
    functions are left as they are. *)
Ltac run_block :=
  cbv beta iota zeta
      delta [bind ret when get modify answer call emit raise exit log
             log_exc_info read ask perform import version_parse assert
             try_except run].

(* ===================================================================== *)
(** * The diagnostic reporter *)
(* ===================================================================== *)

(** Every call of the diagnostic reporter, whatever the exception being
    handled, the failure object [e], the subsystem name and the remediation
    message, makes three logger calls and then leaves through [exit(1)]: a
    debug record with [exc_info=1], which carries the exception being
    handled; an error record with the summary [type(e).__name__: e]; an
    error record that frames the subsystem name and the remediation text in
    the red and reset escape codes.  The outcome is [SystemExit] with
    status 1, so control does not come back to the caller.  When no message
    is supplied ([None]), the remediation text is
    ['Please ensure it has been installed correctly.']. *)
Lemma handle_exception_trace
      (handling : option Exn) (e : Exn) (mod_name : string) (message : PyVal) :
  let r := _handle_exception handling e mod_name message in
  let remediation :=
    match message with
    | PNone => generic_remediation
    | _ => py_str message
    end in
  trace r =
    [Log DEBUG "Exception" (ExcInfoOf handling);
     Log ERROR (exc_type e +:+ ": " +:+ exc_str e) false;
     Log ERROR (esc +:+ "[31m<" +:+ mod_name +:+ "> test failed!" +:+ nl +:+
                remediation +:+ esc +:+ "[0m") false] /\
  outcome r = SystemExit 1.
Proof.
  cbv zeta. split.
  - destruct message; reflexivity.
  - reflexivity.
Qed.

Lemma call_handle_exception {S : Type} handling e mod_name message (s : S) :
  call (_handle_exception handling e mod_name message) s =
    (trace (_handle_exception handling e mod_name message), s, SystemExit 1).
Proof. reflexivity. Qed.

(* ===================================================================== *)
(** * The backend and runtime probes *)
(* ===================================================================== *)

(** The backend probe returns normally or ends the process; it imports
    nothing for a device outside the three alternative accelerators. *)
Lemma try_import_deeplink_settled env device_type :
  settled (try_import_deeplink env device_type).
Proof.
  unfold settled, try_import_deeplink.
  destruct (existsb (String.eqb device_type) _); [|left; eexists; reflexivity].
  run_block. destruct (env_import env _); [right|left; eexists]; reflexivity.
Qed.

Lemma try_import_deeplink_other_device env device_type :
  device_type <> "ascend" -> device_type <> "npu" -> device_type <> "maca" ->
  try_import_deeplink env device_type = ([], Return tt).
Proof.
  intros H1 H2 H3. unfold try_import_deeplink.
  apply String.eqb_neq in H1, H2, H3. simpl. rewrite H1, H2, H3. reflexivity.
Qed.

(** The runtime smoke test returns normally or ends the process. *)
Lemma check_env_torch_settled env :
  settled (check_env_torch env).
Proof.
  unfold settled, check_env_torch. run_block.
  destruct (env_import env "torch"); [right; reflexivity|].
  destruct (env_torch_smoke env); [right|left; eexists]; reflexivity.
Qed.

(* ===================================================================== *)
(** * The kernel-compiler probe *)
(* ===================================================================== *)

(** What the [try] body leaves in the local variables: [msg] is never
    assigned there, and a normal end has bound [torch] and
    [triton_version], the latter to the parsed [triton.__version__]. *)
Lemma check_env_triton_try_wp env (s : TritonLocals) :
  wp (check_env_triton_try env)
     (fun _ l => l_msg l = l_msg s /\ l_torch l = Some tt /\
                 exists v, parse_version env (env_triton_version env) = inr v /\
                           l_triton_version l = Some v)
     (fun _ l => l_msg l = l_msg s) s.
Proof.
  unfold check_env_triton_try.
  repeat wp_step; simpl; eauto.
Qed.

Lemma check_env_triton_capability_eq env l v major minor :
  l_torch l = Some tt ->
  l_triton_version l = Some v ->
  env_device_capability env = inr (major, minor) ->
  check_env_triton_capability env "cuda" l =
    if (major <=? 7)%Z && Version.leb v v231
    then ([Call "torch.cuda.get_device_capability" []] ++
            trace (_handle_exception (env_exc_info env) capability_error
                                     "Triton" PNone),
          l, SystemExit 1)
    else ([Call "torch.cuda.get_device_capability" []], l, Return tt).
Proof.
  intros Ht Hv Hcap.
  unfold check_env_triton_capability, read, ask, version_parse.
  rewrite Hcap, parse_2_3_1.
  change (String.eqb "cuda" "cuda") with true. cbv iota.
  unfold bind, get, answer, ret, emit, call. rewrite Ht. cbv beta iota.
  change (fst (major, minor)) with major.
  destruct (major <=? 7)%Z; [|reflexivity].
  rewrite Hv. cbv beta iota.
  destruct (Version.leb v v231); reflexivity.
Qed.

(** Without the capability check (any device other than ['cuda']) the
    probe ends where its [try] statement ends. *)
Lemma check_env_triton_capability_skip env device l :
  String.eqb device "cuda" = false ->
  check_env_triton_capability env device l = ([], l, Return tt).
Proof. intros H. unfold check_env_triton_capability. rewrite H. reflexivity. Qed.

Lemma check_env_triton_except_eq e l :
  l_msg l = triton_msg ->
  (is_RuntimeError e = true -> textual e = true) ->
  exists l',
    check_env_triton_except e l =
      (trace (_handle_exception (Some e) e
                                "Triton" (PStr (triton_remediation e))),
       l', SystemExit 1).
Proof.
  intros Hmsg Htext.
  unfold check_env_triton_except, triton_remediation, ptxas_in_text, textual in *.
  destruct (is_RuntimeError e).
  - specialize (Htext eq_refl). unfold has_ptxas_error.
    destruct (exc_args e) as [|[| |s|] rest]; try discriminate.
    + run_block. rewrite Hmsg. eexists. reflexivity.
    + unfold py_in. destruct (is_substring ptxas_error s); run_block.
      * eexists. reflexivity.
      * rewrite Hmsg. eexists. reflexivity.
  - run_block. rewrite Hmsg. eexists. reflexivity.
Qed.

(** A [RuntimeError] whose first argument is a number: the membership test
    of the handler raises, and the [TypeError] leaves the probe. *)
Lemma check_env_triton_numeric_argument env device t l e z rest :
  check_env_triton_try env triton_locals0 = (t, l, Raise e) ->
  is_RuntimeError e = true ->
  exc_args e = PInt z :: rest ->
  check_env_triton env device =
    (t, Raise (TypeError "argument of type 'int' is not iterable")).
Proof.
  intros Htry Hrt Hargs.
  unfold check_env_triton, run, bind, try_except. rewrite Htry.
  unfold check_env_triton_except, has_ptxas_error. rewrite Hrt, Hargs.
  unfold py_in. run_block. rewrite app_nil_r. reflexivity.
Qed.

(** The capability query runs after the [try] statement: an exception it
    raises leaves the probe unreported. *)
Lemma check_env_triton_capability_failure env t l e :
  check_env_triton_try env triton_locals0 = (t, l, Return tt) ->
  env_device_capability env = inl e ->
  check_env_triton env "cuda" =
    (t ++ [Call "torch.cuda.get_device_capability" []], Raise e).
Proof.
  intros Htry Hcap.
  pose proof (wp_Return _ _ _ _ _ _ _ (check_env_triton_try_wp env triton_locals0) Htry)
    as (_ & Htorch & _).
  unfold check_env_triton, run, bind, try_except. rewrite Htry.
  unfold check_env_triton_capability.
  change (String.eqb "cuda" "cuda") with true. cbv iota.
  run_block. rewrite Htorch, Hcap. reflexivity.
Qed.

(** Claim C1.  Take a run of the kernel-compiler probe for device ['cuda']
    whose [try] statement (imports, version bound, custom-kernel smoke
    test) ends normally with trace [t]; let [v] be the parsed
    [triton.__version__] and [(major, minor)] the device capability.  The
    probe leaves through the diagnostic reporter with status 1 if and only
    if [major <= 7] and [v <= 2.3.1]; it then reports [capability_error]
    under ['Triton'] with the generic remediation (in a call made outside
    any [except] block, so while the caller's exception, if any, is the
    one being handled), and otherwise returns normally.  At the
    boundaries: capability 7 with a version at most 2.3.1 is fatal and
    capability 8 never is; version 2.3.1 on a capability at most 7 is fatal
    and version 2.3.2 never is. *)
Theorem check_env_triton_capability_gate
        (env : Env) (t : list Event) (l : TritonLocals)
        (v : Version.t) (major minor : Z) :
  check_env_triton_try env triton_locals0 = (t, l, Return tt) ->
  parse_version env (env_triton_version env) = inr v ->
  env_device_capability env = inr (major, minor) ->
  let r := check_env_triton env "cuda" in
  let probed := t ++ [Call "torch.cuda.get_device_capability" []] in
  (outcome r = SystemExit 1 <-> (major <= 7)%Z /\ Version.leb v v231 = true) /\
  ((major <= 7)%Z /\ Version.leb v v231 = true ->
   r = (probed ++ trace (_handle_exception (env_exc_info env) capability_error
                                           "Triton" PNone),
        SystemExit 1)) /\
  (~ ((major <= 7)%Z /\ Version.leb v v231 = true) -> r = (probed, Return tt)) /\
  (major = 7%Z -> Version.leb v v231 = true -> outcome r = SystemExit 1) /\
  (major = 8%Z -> outcome r = Return tt) /\
  (v = v231 -> (major <= 7)%Z -> outcome r = SystemExit 1) /\
  (v = Version.of_release [2; 3; 2]%N -> outcome r = Return tt).
Proof.
  intros Htry Hv Hcap.
  pose proof (wp_Return _ _ _ _ _ _ _ (check_env_triton_try_wp env triton_locals0) Htry)
    as (_ & Htorch & v' & Hv' & Hlv).
  rewrite Hv in Hv'. injection Hv' as <-.
  assert (Hr : check_env_triton env "cuda" =
               if (major <=? 7)%Z && Version.leb v v231
               then ((t ++ [Call "torch.cuda.get_device_capability" []]) ++
                       trace (_handle_exception (env_exc_info env) capability_error
                                                "Triton" PNone),
                     SystemExit 1)
               else (t ++ [Call "torch.cuda.get_device_capability" []], Return tt)).
  { unfold check_env_triton, run, bind, try_except. rewrite Htry.
    rewrite (check_env_triton_capability_eq env l v major minor Htorch Hlv Hcap).
    destruct ((major <=? 7)%Z && Version.leb v v231);
      [rewrite <- app_assoc|]; reflexivity. }
  cbv zeta. rewrite Hr. clear Hr.
  destruct (Z.leb_spec major 7) as [Hle|Hgt];
    destruct (Version.leb v v231) eqn:Hleb; cbn [andb outcome snd];
    repeat split; try tauto; try congruence; try lia; try discriminate.
  all: try (intros [? ?]; first [lia|congruence]).
  all: try (intros ->; discriminate).
Qed.

Lemma check_env_triton_capability_gate_witness :
  outcome (check_env_triton (env_triton "2.3.1" (7, 5)%Z) "cuda") = SystemExit 1 /\
  outcome (check_env_triton (env_triton "2.3.1" (8, 0)%Z) "cuda") = Return tt /\
  outcome (check_env_triton (env_triton "2.3.2" (7, 5)%Z) "cuda") = Return tt.
Proof.
  split; [|split].
  - edestruct (check_env_triton_capability_gate (env_triton "2.3.1" (7, 5)%Z))
      as (_ & _ & _ & H & _); [reflexivity|reflexivity|reflexivity|].
    apply H; reflexivity.
  - edestruct (check_env_triton_capability_gate (env_triton "2.3.1" (8, 0)%Z))
      as (_ & _ & _ & _ & H & _); [reflexivity|reflexivity|reflexivity|].
    apply H; reflexivity.
  - edestruct (check_env_triton_capability_gate (env_triton "2.3.2" (7, 5)%Z))
      as (_ & _ & _ & _ & _ & _ & H); [reflexivity|reflexivity|reflexivity|].
    apply H; reflexivity.
Defined.

(** Claim C4, where the code departs from it.  Every call of the diagnostic
    reporter logs the failure summary and the remediation text at error
    level and leaves with status 1; its debug record, made with
    [exc_info=1], carries the exception being handled when the call is
    made, whatever the failure object it is given.  The call of the
    capability check (line 108) is made outside any [except] block, with a
    [RuntimeError] that was built and never raised.  So on a ['cuda'] host
    whose [try] statement ends normally, whose capability is at most 7 and
    whose triton version is at most 2.3.1, entered while no exception is
    being handled, the report names [capability_error] in its summary and
    its debug record carries no failure at all. *)
Theorem handle_exception_detail_outside_handler :
  (forall (handling : option Exn) (e : Exn) (mod_name : string)
          (message : PyVal),
     let r := _handle_exception handling e mod_name message in
     let remediation :=
       match message with
       | PNone => generic_remediation
       | _ => py_str message
       end in
     trace r =
       [Log DEBUG "Exception" (ExcInfoOf handling);
        Log ERROR (exc_type e +:+ ": " +:+ exc_str e) false;
        Log ERROR (esc +:+ "[31m<" +:+ mod_name +:+ "> test failed!" +:+ nl +:+
                   remediation +:+ esc +:+ "[0m") false] /\
     outcome r = SystemExit 1) /\
  (forall (env : Env) (t : list Event) (l : TritonLocals)
          (v : Version.t) (major minor : Z),
     check_env_triton_try env triton_locals0 = (t, l, Return tt) ->
     parse_version env (env_triton_version env) = inr v ->
     env_device_capability env = inr (major, minor) ->
     (major <= 7)%Z ->
     Version.leb v v231 = true ->
     env_exc_info env = None ->
     check_env_triton env "cuda" =
       (t ++ [Call "torch.cuda.get_device_capability" [];
              Log DEBUG "Exception" (ExcInfoOf None);
              Log ERROR ("RuntimeError: " +:+ exc_str capability_error) false;
              Log ERROR (esc +:+ "[31m<Triton> test failed!" +:+ nl +:+
                         generic_remediation +:+ esc +:+ "[0m") false],
        SystemExit 1)).
Proof.
  split; [exact handle_exception_trace|].
  intros env t l v major minor Htry Hv Hcap Hmajor Hleb Hnone.
  pose proof (wp_Return _ _ _ _ _ _ _ (check_env_triton_try_wp env triton_locals0) Htry)
    as (_ & Htorch & v' & Hv' & Hlv).
  rewrite Hv in Hv'. injection Hv' as <-.
  unfold check_env_triton, run, bind, try_except. rewrite Htry.
  rewrite (check_env_triton_capability_eq env l v major minor Htorch Hlv Hcap).
  apply Z.leb_le in Hmajor. rewrite Hmajor, Hleb, Hnone. reflexivity.
Qed.

Lemma handle_exception_detail_outside_handler_witness :
  check_env_triton (env_triton "2.3.1" (7, 5)%Z) "cuda" =
    ([Log DEBUG "Checking <Triton> environment." false;
      Import "torch"; Import "triton";
      Import ".triton_custom_add";
      Call "torch.testing.assert_close" ["c"; "a + b"];
      Call "torch.cuda.get_device_capability" [];
      Log DEBUG "Exception" (ExcInfoOf None);
      Log ERROR ("RuntimeError: Attention triton kernel does not fully " +:+
                 "support triton<3.0.0 on device with capability<8. " +:+
                 "Please upgrade your triton version.") false;
      Log ERROR (esc +:+ "[31m<Triton> test failed!" +:+ nl +:+
                 "Please ensure it has been installed correctly." +:+
                 esc +:+ "[0m") false],
     SystemExit 1).
Proof.
  destruct handle_exception_detail_outside_handler as [_ H].
  exact (H (env_triton "2.3.1" (7, 5)%Z) _ _ _ _ _
           eq_refl eq_refl eq_refl ltac:(discriminate) eq_refl eq_refl).
Defined.

(** Claim C6, as the code has it.  Take a run of the kernel-compiler probe
    whose [try] statement raises [e], and suppose that [e], if it is a
    [RuntimeError], has no arguments or text as its first argument.  The
    probe reports [e] under ['Triton'] through the diagnostic reporter and
    leaves with status 1.  The remediation is the driver-reinstall message
    exactly when [e] is a [RuntimeError] whose first argument contains
    ['device kernel image is invalid']; for every other such failure,
    whatever its text, it is the generic Triton message. *)
Theorem check_env_triton_failure_remediation
        (env : Env) (device : string) (t : list Event) (l : TritonLocals)
        (e : Exn) :
  check_env_triton_try env triton_locals0 = (t, l, Raise e) ->
  (is_RuntimeError e = true -> textual e = true) ->
  check_env_triton env device =
    (t ++ trace (_handle_exception (Some e) e
                                   "Triton" (PStr (triton_remediation e))),
     SystemExit 1) /\
  (is_RuntimeError e = true -> ptxas_in_text e = true ->
   triton_remediation e = ptxas_msg) /\
  (is_RuntimeError e = false \/ ptxas_in_text e = false ->
   triton_remediation e = triton_msg).
Proof.
  intros Htry Htext.
  pose proof (wp_Raise _ _ _ _ _ _ _ (check_env_triton_try_wp env triton_locals0) Htry)
    as Hmsg.
  destruct (check_env_triton_except_eq e l Hmsg Htext) as [l' Hexc].
  split; [|split].
  - unfold check_env_triton, run, bind, try_except. rewrite Htry, Hexc. reflexivity.
  - unfold triton_remediation. intros -> ->. reflexivity.
  - unfold triton_remediation. intros [-> | ->]; [reflexivity|].
    rewrite andb_false_r. reflexivity.
Qed.

Lemma check_env_triton_failure_remediation_witness :
  let t := [Log DEBUG "Checking <Triton> environment." false;
            Import "torch"; Import "triton"; Import ".triton_custom_add";
            Call "torch.testing.assert_close" ["c"; "a + b"]] in
  check_env_triton (env_triton_fails kernel_image_error) "cuda" =
    (t ++ trace (_handle_exception (Some kernel_image_error) kernel_image_error
                                   "Triton" (PStr ptxas_msg)),
     SystemExit 1).
Proof.
  cbv zeta.
  edestruct (check_env_triton_failure_remediation
               (env_triton_fails kernel_image_error) "cuda")
    as (H & Hptxas & _); [reflexivity|reflexivity|].
  rewrite H, Hptxas; reflexivity.
Defined.

(** Claim C6, as stated, fails.  The smoke test raises a plain [Exception]
    whose text, and whose first argument, is ['device kernel image is
    invalid'].  The failure text contains the signature, yet the probe
    reports it with the generic Triton message and not with the
    driver-reinstall message: the handler that looks for the signature is
    the one of [except RuntimeError]. *)
Lemma check_env_triton_signature_outside_RuntimeError :
  let env := env_triton_fails kernel_image_exception in
  let t := [Log DEBUG "Checking <Triton> environment." false;
            Import "torch"; Import "triton"; Import ".triton_custom_add";
            Call "torch.testing.assert_close" ["c"; "a + b"]] in
  check_env_triton_try env triton_locals0 =
    (t, mkTritonLocals triton_msg (Some tt) (Some (Version.of_release [3; 0; 0]%N)),
     Raise kernel_image_exception) /\
  is_substring ptxas_error (exc_str kernel_image_exception) = true /\
  ptxas_in_text kernel_image_exception = true /\
  check_env_triton env "cuda" =
    (t ++ trace (_handle_exception (Some kernel_image_exception) kernel_image_exception
                                   "Triton" (PStr triton_msg)),
     SystemExit 1) /\
  check_env_triton env "cuda" <>
    (t ++ trace (_handle_exception (Some kernel_image_exception) kernel_image_exception
                                   "Triton" (PStr ptxas_msg)),
     SystemExit 1).
Proof.
  cbv zeta. split; [|split; [|split; [|split]]]; try reflexivity.
  intros H. vm_compute in H. discriminate H.
Qed.

(* ===================================================================== *)
(** * The model and configuration probe *)
(* ===================================================================== *)

Lemma check_transformers_version_eq env v :
  env_import env "transformers" = None ->
  parse_version env (env_transformers_version env) = inr v ->
  __check_transformers_version env =
    (version_checked ++
       (if outside_range v
        then [version_warning (env_transformers_version env)] else []),
     Return (tt, Some v)).
Proof.
  intros Himp Hv. unfold __check_transformers_version, outside_range.
  run_block. rewrite Himp. run_block. rewrite Hv. run_block.
  rewrite parse_MIN_TRANSFORMERS_VERSION, parse_MAX_TRANSFORMERS_VERSION.
  run_block.
  destruct (Version.ltb v v4_33_0 || Version.gtb v v4_44_1); reflexivity.
Qed.

(** Claim C2.  When [transformers] imports and its [__version__] parses to
    [v], the version check logs a warning if and only if [v < 4.33.0] or
    [v > 4.44.1].  The warning names both bounds and the installed version
    string.  Inside the range the check makes no logger call above debug
    level: its trace is the debug line that announces it and the import.
    In particular it is silent when [v] is 4.33.0 or 4.44.1.  In every case
    the check returns the parsed version. *)
Theorem check_transformers_version_warns_outside_range
        (env : Env) (v : Version.t) :
  env_import env "transformers" = None ->
  parse_version env (env_transformers_version env) = inr v ->
  let r := __check_transformers_version env in
  (warned r <-> Version.ltb v v4_33_0 = true \/ Version.gtb v v4_44_1 = true) /\
  (Version.ltb v v4_33_0 = true \/ Version.gtb v v4_44_1 = true ->
   r = (version_checked ++ [version_warning (env_transformers_version env)],
        Return (tt, Some v))) /\
  (Version.ltb v v4_33_0 = false /\ Version.gtb v v4_44_1 = false ->
   r = (version_checked, Return (tt, Some v))) /\
  (v = v4_33_0 \/ v = v4_44_1 -> r = (version_checked, Return (tt, Some v))).
Proof.
  intros Himp Hv. cbv zeta.
  rewrite (check_transformers_version_eq env v Himp Hv). unfold outside_range.
  assert (Hquiet : ~ warned (version_checked, Return (tt, Some v))).
  { intros (msg & b & Hin). simpl in Hin.
    destruct Hin as [H|[H|[]]]; discriminate. }
  split; [split|split; [|split]].
  - destruct (Version.ltb v v4_33_0), (Version.gtb v v4_44_1); simpl; auto;
      rewrite ?app_nil_r; intros H; destruct (Hquiet H).
  - intros H. apply orb_true_iff in H. rewrite H.
    exists ("LMDeploy requires transformers version: [4.33.0 ~ 4.44.1], " +:+
            "but found version: " +:+ env_transformers_version env), false.
    unfold trace, fst. apply in_or_app. right. left. reflexivity.
  - intros H. apply orb_true_iff in H. rewrite H. reflexivity.
  - intros [H1 H2]. rewrite H1, H2. reflexivity.
  - intros [-> | ->]; reflexivity.
Qed.

Lemma check_transformers_version_warns_outside_range_witness :
  __check_transformers_version (env_model cfg_plain (inr (ModelConfig.mk float16))) =
    (version_checked, Return (tt, Some v4_44_1)) /\
  __check_transformers_version env_old_transformers =
    (version_checked ++ [version_warning "4.32.1"],
     Return (tt, Some (Version.of_release [4; 32; 1]%N))).
Proof.
  split.
  - edestruct (check_transformers_version_warns_outside_range
                 (env_model cfg_plain (inr (ModelConfig.mk float16))) v4_44_1)
      as (_ & _ & _ & H); [reflexivity|reflexivity|].
    apply H. right. reflexivity.
  - edestruct (check_transformers_version_warns_outside_range
                 env_old_transformers (Version.of_release [4; 32; 1]%N))
      as (_ & H & _); [reflexivity|reflexivity|].
    apply H. left. reflexivity.
Defined.

(** The version check returns or ends the process: a failing import and
    a version string that does not parse are both reported. *)
Lemma check_transformers_version_settled env :
  settled (__check_transformers_version env).
Proof.
  unfold settled, __check_transformers_version. run_block.
  destruct (env_import env "transformers"); [right; reflexivity|].
  destruct (parse_version env (env_transformers_version env)); [right; reflexivity|].
  rewrite parse_MIN_TRANSFORMERS_VERSION, parse_MAX_TRANSFORMERS_VERSION.
  destruct (_ || _); left; eexists; reflexivity.
Qed.

Lemma check_config_settled env model_path trust_remote_code trans_version :
  settled (__check_config env model_path trust_remote_code trans_version).
Proof.
  unfold settled, __check_config. run_block.
  destruct (env_import env "transformers"); [right; reflexivity|].
  destruct (env_AutoConfig_from_pretrained env model_path trust_remote_code);
    [right; reflexivity|left; eexists; reflexivity].
Qed.

(** So does the per-model version check, also on a declared version that
    does not parse. *)
Lemma check_model_transformers_version_settled
      env model_path cfg trans_version :
  settled (__check_model_transformers_version env model_path cfg trans_version).
Proof.
  unfold settled, __check_model_transformers_version, version_ge.
  destruct (HfConfig.transformers_version cfg) as [s|];
    [|left; eexists; reflexivity].
  run_block.
  destruct (parse_version env s) as [e|required]; [right; reflexivity|].
  destruct trans_version as [installed|]; [|right; reflexivity].
  run_block. destruct (Version.geb installed required);
    [left; eexists|right]; reflexivity.
Qed.

Lemma check_config_eq env model_path trust_remote_code trans_version cfg :
  env_import env "transformers" = None ->
  env_AutoConfig_from_pretrained env model_path trust_remote_code = inr cfg ->
  __check_config env model_path trust_remote_code trans_version =
    (config_checked model_path trust_remote_code, Return cfg).
Proof.
  intros Himp Hcfg. unfold __check_config. run_block.
  rewrite Himp. run_block. rewrite Hcfg. reflexivity.
Qed.

Lemma check_model_version_mismatch env model_path cfg installed s required :
  HfConfig.transformers_version cfg = Some s ->
  parse_version env s = inr required ->
  Version.geb installed required = false ->
  __check_model_transformers_version env model_path cfg (Some installed) =
    (model_version_checking ::
       trace (_handle_exception
                (Some (AssertionError "Version mismatch."))
                (AssertionError "Version mismatch.") "transformers"
                (PStr (mismatch_message model_path required installed))),
     SystemExit 1).
Proof.
  intros Hattr Hparse Hge. unfold __check_model_transformers_version, version_ge.
  rewrite Hattr. run_block. rewrite Hparse. run_block. rewrite Hge. reflexivity.
Qed.

Lemma check_model_version_ok env model_path cfg installed :
  (HfConfig.transformers_version cfg = None \/
   exists s required,
     HfConfig.transformers_version cfg = Some s /\
     parse_version env s = inr required /\
     Version.geb installed required = true) ->
  __check_model_transformers_version env model_path cfg (Some installed) =
    ([model_version_checking], Return tt).
Proof.
  unfold __check_model_transformers_version, version_ge.
  intros [Hattr | (s & required & Hattr & Hparse & Hge)]; rewrite Hattr.
  - reflexivity.
  - run_block. rewrite Hparse. run_block. rewrite Hge. reflexivity.
Qed.

(** Claim C5.  Take a run of [check_model] in which [transformers] imports,
    its version parses to [installed] and the model configuration loads.
    If the configuration declares a [transformers_version] that parses to
    a version strictly greater than [installed], the run ends in the
    per-model version check: the diagnostic reporter is called under
    ['transformers'] with the failed assertion and a message that names the
    model path, the required version and the installed version, and the
    process leaves with status 1.  If the configuration declares no version,
    or one that [installed] is greater than or equal to, the per-model check
    returns normally with nothing logged but the debug line that announces
    it. *)
Theorem check_model_version_requirement
        (env : Env) (model_path : string) (trust_remote_code : bool)
        (dtype device_type : string) (installed : Version.t) (cfg : HfConfig.t) :
  env_import env "transformers" = None ->
  parse_version env (env_transformers_version env) = inr installed ->
  env_AutoConfig_from_pretrained env model_path trust_remote_code = inr cfg ->
  (forall s required,
     HfConfig.transformers_version cfg = Some s ->
     parse_version env s = inr required ->
     Version.gtb required installed = true ->
     check_model env model_path trust_remote_code dtype device_type =
       (Log INFO "Checking model." false ::
          trace (__check_transformers_version env) ++
          config_checked model_path trust_remote_code ++
          model_version_checking ::
          trace (_handle_exception
                   (Some (AssertionError "Version mismatch."))
                   (AssertionError "Version mismatch.") "transformers"
                   (PStr (mismatch_message model_path required installed))),
        SystemExit 1)) /\
  ((HfConfig.transformers_version cfg = None \/
    exists s required,
      HfConfig.transformers_version cfg = Some s /\
      parse_version env s = inr required /\
      Version.geb installed required = true) ->
   __check_model_transformers_version env model_path cfg (Some installed) =
     ([model_version_checking], Return tt)).
Proof.
  intros Himp Hv Hcfg. split; [|apply check_model_version_ok].
  intros s required Hattr Hparse Hgt.
  apply VersionFacts.geb_false_iff_gtb in Hgt.
  unfold check_model, check_transformers_version. run_block.
  rewrite (check_transformers_version_eq env installed Himp Hv).
  cbv beta iota delta [fst snd trace].
  rewrite (check_config_eq env model_path trust_remote_code (Some installed) cfg
             Himp Hcfg).
  cbv beta iota delta [fst snd].
  rewrite (check_model_version_mismatch env model_path cfg installed s required
             Hattr Hparse Hgt).
  cbv beta iota delta [fst snd].
  rewrite <- !app_assoc. reflexivity.
Qed.

Lemma check_model_version_requirement_witness :
  let r := check_model (env_model (cfg_requires "4.50.0")
                                  (inr (ModelConfig.mk float16)))
                       "/path/to/model" true "auto" "cuda" in
  outcome r = SystemExit 1 /\
  last (trace r) =
    Some (Log ERROR
              (esc +:+ "[31m<transformers> test failed!" +:+ nl +:+
               "model `/path/to/model` requires transformers version 4.50.0 " +:+
               "but transformers 4.44.1 is installed." +:+ esc +:+ "[0m")
              false).
Proof.
  cbv zeta.
  edestruct (check_model_version_requirement
               (env_model (cfg_requires "4.50.0") (inr (ModelConfig.mk float16)))
               "/path/to/model" true "auto" "cuda" v4_44_1)
    as [H _]; [reflexivity|reflexivity|reflexivity|].
  rewrite (H "4.50.0" v4_50_0 eq_refl eq_refl eq_refl).
  split; reflexivity.
Defined.

(** An [AssertionError] raised by [ModelConfig.from_hf_config] reaches the
    handler written for the bf16 assertion before [model_config] is bound:
    formatting the message raises [UnboundLocalError], which leaves the
    probe. *)
Lemma check_model_dtype_support_unbound
      env model_path dtype cfg device_type e :
  env_import env "torch" = None ->
  env_import env "lmdeploy.pytorch.config" = None ->
  env_import env "lmdeploy.utils" = None ->
  env_from_hf_config env cfg model_path dtype = inl e ->
  is_AssertionError e = true ->
  __check_model_dtype_support env model_path dtype cfg device_type =
    ([Log DEBUG "Checking <Model> dtype support." false;
      Import "torch"; Import "lmdeploy.pytorch.config"; Import "lmdeploy.utils";
      Call "ModelConfig.from_hf_config" [model_path; dtype]],
     Raise (UnboundLocalError "model_config")).
Proof.
  intros H1 H2 H3 Hmc Hfam. unfold __check_model_dtype_support. run_block.
  rewrite H1, H2, H3. run_block. rewrite Hmc. run_block. rewrite Hfam.
  reflexivity.
Qed.

(** The imports of the dtype check come before its [try] statement: a
    failing one leaves the probe unreported. *)
Lemma check_model_dtype_support_import_failure
      env model_path dtype cfg device_type e :
  env_import env "torch" = Some e ->
  __check_model_dtype_support env model_path dtype cfg device_type =
    ([Log DEBUG "Checking <Model> dtype support." false; Import "torch"],
     Raise e).
Proof.
  intros H. unfold __check_model_dtype_support. run_block. rewrite H.
  reflexivity.
Qed.

(** Any other failure of the dtype check is reported and ends the
    process; the message handed to the reporter is a pair of strings. *)
Lemma check_model_dtype_support_other_failure
      env model_path dtype cfg device_type e :
  env_import env "torch" = None ->
  env_import env "lmdeploy.pytorch.config" = None ->
  env_import env "lmdeploy.utils" = None ->
  env_from_hf_config env cfg model_path dtype = inl e ->
  is_AssertionError e = false ->
  outcome (__check_model_dtype_support env model_path dtype cfg device_type) =
    SystemExit 1.
Proof.
  intros H1 H2 H3 Hmc Hfam. unfold __check_model_dtype_support. run_block.
  rewrite H1, H2, H3. run_block. rewrite Hmc. run_block. rewrite Hfam.
  reflexivity.
Qed.

(** Claim C3, at an input where the code breaks it.  [check_model] runs on
    a host where everything imports and the configuration loads, and
    [ModelConfig.from_hf_config] fails one of its own assertions.  The
    [except AssertionError] handler of the dtype check formats its message
    from [model_config.dtype], but [model_config] was never assigned: the
    handler raises [UnboundLocalError].  Nothing is reported through the
    diagnostic reporter, no warning is logged, and the exception leaves the
    probe and [check_model]. *)
Theorem check_model_dtype_probe_raises :
  check_model (env_model cfg_plain (inl bare_assertion))
              "/path/to/model" true "auto" "cuda" =
    ([Log INFO "Checking model." false;
      Log DEBUG "Checking <transformers> version." false;
      Import "transformers";
      Log DEBUG "Checking <Model> AutoConfig.from_pretrained." false;
      Import "transformers";
      Call "AutoConfig.from_pretrained" ["/path/to/model"; "True"];
      Log DEBUG "Checking <Model> required transformers version." false;
      Log DEBUG "Checking <Model> dtype support." false;
      Import "torch"; Import "lmdeploy.pytorch.config"; Import "lmdeploy.utils";
      Call "ModelConfig.from_hf_config" ["/path/to/model"; "auto"]],
     Raise (UnboundLocalError "model_config")).
Proof. reflexivity. Qed.

(* ===================================================================== *)
(** * The quantization extension probe *)
(* ===================================================================== *)

Lemma eq_str_true (s : string) (v : PyVal) :
  eq_str s v = true <-> v = PStr s.
Proof.
  destruct v; simpl; try (split; intros; discriminate).
  rewrite String.eqb_eq. split; intros H; congruence.
Qed.

Lemma declares_awq_quant_method cfg :
  declares_awq cfg <->
  eq_str "awq"
         (default PNone
            (default (∅ : gmap string PyVal) (HfConfig.quantization_config cfg)
               !! "quant_method")) = true.
Proof.
  rewrite eq_str_true. unfold declares_awq. split.
  - intros (section & -> & Hq). simpl. rewrite Hq. reflexivity.
  - destruct (HfConfig.quantization_config cfg) as [section|]; simpl.
    + destruct (section !! "quant_method") as [q|] eqn:Hq; simpl.
      * intros ->. eauto.
      * discriminate.
    + rewrite lookup_empty. discriminate.
Qed.

(** The quantization probe returns or ends the process. *)
Lemma check_awq_settled env cfg device_type :
  settled (check_awq env cfg device_type).
Proof.
  unfold settled, check_awq.
  destruct (String.eqb device_type "cuda"); [|left; eexists; reflexivity].
  cbv zeta. destruct (negb _); [left; eexists; reflexivity|].
  run_block.
  destruct (env_import env "awq"); [right; reflexivity|].
  destruct (env_import env "awq_ext"); left; eexists; reflexivity.
Qed.

(** Claim C9.  The quantization probe does nothing at all (empty trace,
    normal return: no import, no logger call) unless the device is ['cuda']
    and the configuration has a quantization section whose [quant_method]
    is ['awq']; a configuration without a quantization section is one such
    case.  When the probe applies: if [import awq] raises, the failure is
    reported under ['autoawq'] through the diagnostic reporter and the
    process leaves with status 1; if [awq] imports and [import awq_ext]
    raises, the probe logs the traceback of that failure at debug level and
    a warning with
    the link to the kernels' sources, and returns normally; if both import,
    it returns normally with nothing logged. *)
Theorem check_awq_scope_and_severity
        (env : Env) (cfg : HfConfig.t) (device_type : string) :
  let r := check_awq env cfg device_type in
  (~ (device_type = "cuda" /\ declares_awq cfg) -> r = ([], Return tt)) /\
  (HfConfig.quantization_config cfg = None -> r = ([], Return tt)) /\
  (device_type = "cuda" -> declares_awq cfg ->
   (forall e, env_import env "awq" = Some e ->
      r = (Import "awq" :: trace (_handle_exception (Some e) e "autoawq" PNone),
           SystemExit 1)) /\
   (env_import env "awq" = None ->
      (forall e, env_import env "awq_ext" = Some e ->
         r = ([Import "awq"; Import "awq_ext";
               Log DEBUG "Exception:" (ExcInfoOf (Some e)); awq_ext_warning],
              Return tt)) /\
      (env_import env "awq_ext" = None ->
         r = ([Import "awq"; Import "awq_ext"], Return tt)))).
Proof.
  cbv zeta.
  assert (Hskip : ~ (device_type = "cuda" /\ declares_awq cfg) ->
                  check_awq env cfg device_type = ([], Return tt)).
  { intros Hnot. unfold check_awq.
    destruct (String.eqb device_type "cuda") eqn:Hdev; [|reflexivity].
    apply String.eqb_eq in Hdev.
    destruct (eq_str "awq" _) eqn:Hq; [|reflexivity].
    destruct Hnot. split; [assumption|]. apply declares_awq_quant_method, Hq. }
  split; [exact Hskip|split].
  - intros Hnone. apply Hskip. intros [_ (section & Hsome & _)]. congruence.
  - intros -> Hawq. apply declares_awq_quant_method in Hawq.
    unfold check_awq. rewrite Hawq.
    change (String.eqb "cuda" "cuda") with true. cbv iota. unfold negb.
    split; [|intros Hbase; split].
    + intros e He. run_block. rewrite He. reflexivity.
    + intros e He. run_block. rewrite Hbase, He. reflexivity.
    + intros He. run_block. rewrite Hbase, He. reflexivity.
Qed.

Lemma cfg_awq_declares_awq : declares_awq cfg_awq.
Proof. eexists. split; reflexivity. Defined.

Lemma check_awq_scope_and_severity_witness :
  check_awq (env_missing ["awq_ext"]) cfg_awq "cuda" =
    ([Import "awq"; Import "awq_ext";
      Log DEBUG "Exception:" (ExcInfoOf (Some (ModuleNotFoundError "awq_ext")));
      awq_ext_warning],
     Return tt) /\
  outcome (check_awq (env_missing ["awq"]) cfg_awq "cuda") = SystemExit 1 /\
  check_awq (env_missing ["awq"; "awq_ext"]) cfg_awq "npu" = ([], Return tt) /\
  check_awq (env_missing ["awq"; "awq_ext"]) cfg_plain "cuda" = ([], Return tt).
Proof.
  split; [|split; [|split]].
  - destruct (check_awq_scope_and_severity (env_missing ["awq_ext"]) cfg_awq "cuda")
      as (_ & _ & H).
    destruct (H eq_refl cfg_awq_declares_awq) as (_ & Hext).
    destruct (Hext eq_refl) as (Hwarn & _).
    eapply Hwarn. reflexivity.
  - destruct (check_awq_scope_and_severity (env_missing ["awq"]) cfg_awq "cuda")
      as (_ & _ & H).
    destruct (H eq_refl cfg_awq_declares_awq) as (Hfatal & _).
    erewrite Hfatal; reflexivity.
  - destruct (check_awq_scope_and_severity
                (env_missing ["awq"; "awq_ext"]) cfg_awq "npu") as (H & _).
    apply H. intros [Hdev _]. discriminate Hdev.
  - destruct (check_awq_scope_and_severity
                (env_missing ["awq"; "awq_ext"]) cfg_plain "cuda") as (_ & H & _).
    apply H. reflexivity.
Defined.

(* ===================================================================== *)
(** * The adapter probe *)
(* ===================================================================== *)

Lemma check_adapter_failure env path t e :
  check_adapter_try env path tt = (t, tt, Raise e) ->
  check_adapter env path =
    let '(t', _, o) := check_adapter_except e tt in
    (adapter_checking path :: t ++ t', o).
Proof.
  intros Htry. unfold check_adapter, run, log, try_except, bind, emit.
  rewrite Htry. destruct (check_adapter_except e tt) as [[t' u] o]. reflexivity.
Qed.

(** A load failure with no arguments, or with text as its first argument,
    is reported and ends the process; the hint about unexpected keywords is
    appended exactly when that text has the signature in it. *)
Lemma check_adapter_text_failure env path t e :
  check_adapter_try env path tt = (t, tt, Raise e) ->
  textual e = true ->
  check_adapter env path =
    (adapter_checking path :: t ++
       trace (_handle_exception (Some e) e "Model"
                (PStr (if keyword_in_text e
                       then adapter_msg +:+ adapter_hint
                       else adapter_msg))),
     SystemExit 1).
Proof.
  intros Htry Htext. rewrite (check_adapter_failure env path t e Htry).
  unfold check_adapter_except, keyword_in_text, textual in *.
  destruct (exc_args e) as [|[| |s|] rest]; try discriminate.
  - reflexivity.
  - unfold py_in, keyword_signature.
    destruct (is_substring "got an unexpected keyword argument" s); reflexivity.
Qed.

(** A load failure whose first argument is a number: the membership test
    of the handler raises, and the [TypeError] leaves the probe. *)
Lemma check_adapter_numeric_argument env path t e z rest :
  check_adapter_try env path tt = (t, tt, Raise e) ->
  exc_args e = PInt z :: rest ->
  check_adapter env path =
    (adapter_checking path :: t,
     Raise (TypeError "argument of type 'int' is not iterable")).
Proof.
  intros Htry Hargs. rewrite (check_adapter_failure env path t e Htry).
  unfold check_adapter_except. rewrite Hargs. unfold py_in. run_block.
  rewrite app_nil_r. reflexivity.
Qed.

(** Claim C7, at an input where the code breaks it.  Loading the adapter
    configuration raises [PermissionError(13, 'Permission denied')], the
    error [open] gives on a file the process may not read.  The handler
    takes the first argument, the number 13, for the message text and
    tests it for the keyword signature: [in] raises [TypeError] on a
    number.  The failure is not reported through the diagnostic reporter,
    the process is not ended with status 1, and the [TypeError] leaves
    [check_adapter]. *)
Theorem check_adapter_errno_failure_raises :
  check_adapter (env_adapter_fails permission_error) "adapter" =
    ([adapter_checking "adapter"; Import "peft";
      Call "PeftConfig.from_pretrained" ["adapter"]],
     Raise (TypeError "argument of type 'int' is not iterable")).
Proof. reflexivity. Qed.

(** Claim C10.  When the [try] statement of [check_adapter] raises an
    exception whose [args] is empty, the handler takes the empty string for
    the message text: it does not index [args], the signature is not found,
    and the failure is reported under ['Model'] through the diagnostic
    reporter with the load-with-peft remediation alone, which does not
    contain the hint about unexpected keywords.  The process leaves with
    status 1. *)
Theorem check_adapter_no_arguments
        (env : Env) (path : string) (t : list Event) (e : Exn) :
  check_adapter_try env path tt = (t, tt, Raise e) ->
  exc_args e = [] ->
  check_adapter env path =
    (adapter_checking path :: t ++
       trace (_handle_exception (Some e) e "Model" (PStr adapter_msg)),
     SystemExit 1) /\
  is_substring adapter_hint adapter_msg = false.
Proof.
  intros Htry Hargs. split; [|reflexivity].
  rewrite (check_adapter_failure env path t e Htry).
  unfold check_adapter_except. rewrite Hargs. reflexivity.
Qed.

Lemma check_adapter_no_arguments_witness :
  check_adapter (env_adapter_fails bare_error) "adapter" =
    ([adapter_checking "adapter"; Import "peft";
      Call "PeftConfig.from_pretrained" ["adapter"]] ++
       trace (_handle_exception (Some bare_error) bare_error
                                "Model" (PStr adapter_msg)),
     SystemExit 1).
Proof.
  edestruct (check_adapter_no_arguments (env_adapter_fails bare_error) "adapter")
    as [H _]; [reflexivity|reflexivity|].
  exact H.
Defined.

(** Claim C8.  On an empty sequence of adapter paths, [check_adapters]
    returns normally with an empty trace: no logger call, no import, no
    adapter configuration load, no exit.  This holds on every host. *)
Theorem check_adapters_empty (env : Env) :
  check_adapters env [] = ([], Return tt).
Proof. reflexivity. Qed.

(** On a non-empty sequence the adapters are checked in order, after one
    info line. *)
Example check_adapters_in_order :
  check_adapters env_healthy ["a"; "b"] =
    ([Log INFO "Checking adapters." false;
      adapter_checking "a"; Import "peft"; Call "PeftConfig.from_pretrained" ["a"];
      adapter_checking "b"; Import "peft"; Call "PeftConfig.from_pretrained" ["b"]],
     Return tt).
Proof. reflexivity. Qed.

(* ===================================================================== *)
(** * Adapters are checked in order, up to the first that fails *)
(* ===================================================================== *)

Lemma check_adapter_loads env path :
  env_import env "peft" = None ->
  env_PeftConfig_from_pretrained env path = None ->
  check_adapter env path = (adapter_loaded path, Return tt).
Proof.
  intros Himp Hload. unfold check_adapter, check_adapter_try. run_block.
  rewrite Himp, Hload. reflexivity.
Qed.

Lemma check_adapter_try_load_failure env path e :
  env_import env "peft" = None ->
  env_PeftConfig_from_pretrained env path = Some e ->
  check_adapter_try env path tt =
    ([Import "peft"; Call "PeftConfig.from_pretrained" [path]], tt, Raise e).
Proof.
  intros Himp Hload. unfold check_adapter_try. run_block.
  rewrite Himp, Hload. reflexivity.
Qed.

(** The handler of [check_adapter] never falls through: it ends the
    process or raises. *)
Lemma check_adapter_except_not_Return e :
  forall a, snd (check_adapter_except e tt) <> Return a.
Proof.
  intros a. unfold check_adapter_except.
  destruct (exc_args e) as [|[| |s|items] rest]; unfold py_in; run_block;
    discriminate.
Qed.

Lemma check_adapter_load_failure_not_Return env path e :
  env_import env "peft" = None ->
  env_PeftConfig_from_pretrained env path = Some e ->
  forall a, outcome (check_adapter env path) <> Return a.
Proof.
  intros Himp Hload a.
  rewrite (check_adapter_failure env path _ e
             (check_adapter_try_load_failure env path e Himp Hload)).
  pose proof (check_adapter_except_not_Return e a) as H.
  destruct (check_adapter_except e tt) as [[t' u] o]. exact H.
Qed.

Section ForEachCall.
Context {S A : Type} (f : A -> Res unit) (tr : A -> list Event).

Lemma for_each_call_all_return (l : list A) (s : S) :
  Forall (fun x => f x = (tr x, Return tt)) l ->
  for_each l (fun x => call (f x)) s = (flat_map tr l, s, Return tt).
Proof.
  induction 1 as [|x l Hx Hl IH]; cbn [for_each flat_map].
  - reflexivity.
  - unfold bind at 1. unfold call at 1. rewrite Hx. cbn [fst snd].
    rewrite IH. reflexivity.
Qed.

Lemma for_each_call_stop (pre : list A) (x : A) (rest : list A) (s : S) :
  Forall (fun x => f x = (tr x, Return tt)) pre ->
  (forall a, outcome (f x) <> Return a) ->
  for_each (pre ++ x :: rest) (fun x => call (f x)) s =
    (flat_map tr pre ++ trace (f x), s, outcome (f x)).
Proof.
  intros Hpre Hx.
  induction Hpre as [|y pre Hy Hpre IH]; cbn [app for_each flat_map].
  - unfold bind at 1. unfold call at 1. unfold outcome, trace in *.
    destruct (f x) as [t [a|e|c]]; cbn [fst snd]; try reflexivity.
    destruct (Hx a). reflexivity.
  - unfold bind at 1. unfold call at 1. rewrite Hy. cbn [fst snd].
    rewrite IH, <- app_assoc. reflexivity.
Qed.

End ForEachCall.

(** Property X1.  When [peft] imports and every adapter of a non-empty
    sequence loads, [check_adapters] logs one info line, checks the
    adapters one after the other in the order given, each with its debug
    line, and returns normally. *)
Theorem check_adapters_all_load (env : Env) (adapter_paths : list string) :
  adapter_paths <> [] ->
  env_import env "peft" = None ->
  Forall (fun path => env_PeftConfig_from_pretrained env path = None)
         adapter_paths ->
  check_adapters env adapter_paths =
    (Log INFO "Checking adapters." false :: flat_map adapter_loaded adapter_paths,
     Return tt).
Proof.
  intros Hne Himp Hall. unfold check_adapters.
  destruct adapter_paths as [|p ps]; [congruence|].
  change (length (p :: ps) <=? 0)%nat with false. cbv iota.
  unfold run, bind, log, emit.
  rewrite (for_each_call_all_return (check_adapter env) adapter_loaded).
  - reflexivity.
  - eapply Forall_impl; [exact Hall|]. intros path Hpath.
    apply check_adapter_loads; assumption.
Qed.

Lemma check_adapters_all_load_witness :
  check_adapters env_healthy ["a"; "b"] =
    (Log INFO "Checking adapters." false ::
       adapter_loaded "a" ++ adapter_loaded "b",
     Return tt).
Proof.
  apply (check_adapters_all_load env_healthy ["a"; "b"]).
  - discriminate.
  - reflexivity.
  - repeat constructor.
Defined.

(** Property X2.  [check_adapters] stops at the first adapter whose
    configuration fails to load.  The adapters before it are checked in
    order, the failing one ends the run the way [check_adapter] ends on it
    (never with a normal return), and the adapters after it are not looked
    at: the result does not depend on them. *)
Theorem check_adapters_stop_at_first_failure
        (env : Env) (pre : list string) (bad : string) (rest : list string)
        (e : Exn) :
  env_import env "peft" = None ->
  Forall (fun path => env_PeftConfig_from_pretrained env path = None) pre ->
  env_PeftConfig_from_pretrained env bad = Some e ->
  check_adapters env (pre ++ bad :: rest) =
    (Log INFO "Checking adapters." false ::
       flat_map adapter_loaded pre ++ trace (check_adapter env bad),
     outcome (check_adapter env bad)) /\
  (forall a, outcome (check_adapter env bad) <> Return a).
Proof.
  intros Himp Hpre Hbad.
  pose proof (check_adapter_load_failure_not_Return env bad e Himp Hbad) as Hnot.
  split; [|exact Hnot].
  unfold check_adapters.
  assert (Hlen : (length (pre ++ bad :: rest) <=? 0)%nat = false).
  { apply Nat.leb_gt. rewrite length_app. simpl. lia. }
  rewrite Hlen. unfold run, bind, log, emit.
  rewrite (for_each_call_stop (check_adapter env) adapter_loaded pre bad rest tt).
  - destruct (outcome (check_adapter env bad)); reflexivity.
  - eapply Forall_impl; [exact Hpre|]. intros path Hpath.
    apply check_adapter_loads; assumption.
  - exact Hnot.
Qed.

Lemma check_adapters_stop_at_first_failure_witness :
  check_adapters (env_adapters ["b"] missing_config_error) ["a"; "b"; "c"] =
    (Log INFO "Checking adapters." false ::
       adapter_loaded "a" ++ adapter_loaded "b" ++
       trace (_handle_exception (Some missing_config_error) missing_config_error
                                "Model" (PStr adapter_msg)),
     SystemExit 1).
Proof.
  destruct (check_adapters_stop_at_first_failure
              (env_adapters ["b"] missing_config_error) ["a"] "b" ["c"]
              missing_config_error eq_refl)
    as [H _]; [repeat constructor|reflexivity|].
  exact H.
Defined.

(* ===================================================================== *)
(** * Further properties of the adapter probe *)
(* ===================================================================== *)

(** Property X3.  When the [try] statement of [check_adapter] raises an
    exception that has no arguments or text as its first argument, the
    failure is reported under ['Model'] and the process leaves with status
    1.  The remediation always has the load-with-peft text, and it has the
    hint about unexpected keywords exactly when the first argument contains
    ['got an unexpected keyword argument']. *)
Theorem check_adapter_hint_iff_signature
        (env : Env) (path : string) (t : list Event) (e : Exn) :
  check_adapter_try env path tt = (t, tt, Raise e) ->
  textual e = true ->
  exists message,
    check_adapter env path =
      (adapter_checking path :: t ++
         trace (_handle_exception (Some e) e "Model" (PStr message)),
       SystemExit 1) /\
    is_substring adapter_msg message = true /\
    (is_substring adapter_hint message = true <-> keyword_in_text e = true).
Proof.
  intros Htry Htext.
  exists (if keyword_in_text e then adapter_msg +:+ adapter_hint else adapter_msg).
  split; [apply check_adapter_text_failure; assumption|].
  destruct (keyword_in_text e); split; try reflexivity;
    split; intros H; try reflexivity; vm_compute in H; discriminate H.
Qed.

Lemma check_adapter_hint_iff_signature_witness :
  exists message,
    check_adapter (env_adapter_fails unexpected_keyword_error) "adapter" =
      (adapter_loaded "adapter" ++
         trace (_handle_exception (Some unexpected_keyword_error) unexpected_keyword_error
                                  "Model" (PStr message)),
       SystemExit 1) /\
    is_substring adapter_msg message = true /\
    (is_substring adapter_hint message = true <->
     keyword_in_text unexpected_keyword_error = true).
Proof.
  exact (check_adapter_hint_iff_signature
           (env_adapter_fails unexpected_keyword_error) "adapter"
           [Import "peft"; Call "PeftConfig.from_pretrained" ["adapter"]]
           unexpected_keyword_error eq_refl eq_refl).
Defined.

(* ===================================================================== *)
(** * Further properties of the backend and runtime probes *)
(* ===================================================================== *)

Lemma is_deeplink_device_existsb device_type :
  existsb (String.eqb device_type) ["ascend"; "npu"; "maca"] =
  is_deeplink_device device_type.
Proof.
  unfold is_deeplink_device. simpl. rewrite orb_false_r, orb_assoc. reflexivity.
Qed.

(** Property X10.  The backend probe imports the [dlinfer] extension
    exactly for the device types ['ascend'], ['npu'] and ['maca'].  For any
    other device type it does nothing.  When the import raises, the failure
    is reported under the name ['PyTorch'] with the generic remediation and
    the process leaves with status 1.  [check_env_deeplink] is the same
    probe. *)
Theorem try_import_deeplink_cases (env : Env) (device_type : string) :
  let r := try_import_deeplink env device_type in
  check_env_deeplink env device_type = r /\
  (is_deeplink_device device_type = false -> r = ([], Return tt)) /\
  (is_deeplink_device device_type = true ->
   (env_import env deeplink_module = None ->
    r = ([Import deeplink_module], Return tt)) /\
   (forall e, env_import env deeplink_module = Some e ->
    r = (Import deeplink_module :: trace (_handle_exception (Some e) e
                                                            "PyTorch" PNone),
         SystemExit 1))).
Proof.
  cbv zeta. split; [|split].
  - unfold check_env_deeplink, run, call.
    destruct (try_import_deeplink env device_type). reflexivity.
  - intros H. unfold try_import_deeplink. cbv zeta.
    rewrite is_deeplink_device_existsb, H. reflexivity.
  - intros H. unfold try_import_deeplink. cbv zeta.
    rewrite is_deeplink_device_existsb, H. run_block. unfold deeplink_module.
    split; [intros ->|intros e ->]; reflexivity.
Qed.

Lemma try_import_deeplink_cases_witness :
  try_import_deeplink env_healthy "cuda" = ([], Return tt) /\
  try_import_deeplink env_healthy "ascend" = ([Import deeplink_module], Return tt) /\
  outcome (try_import_deeplink (env_missing [deeplink_module]) "npu") = SystemExit 1.
Proof.
  split; [|split].
  - destruct (try_import_deeplink_cases env_healthy "cuda") as (_ & H & _).
    apply H. reflexivity.
  - destruct (try_import_deeplink_cases env_healthy "ascend") as (_ & _ & H).
    destruct (H eq_refl) as [Hok _]. apply Hok. reflexivity.
  - destruct (try_import_deeplink_cases (env_missing [deeplink_module]) "npu")
      as (_ & _ & H).
    destruct (H eq_refl) as [_ Hfail]. erewrite Hfail; reflexivity.
Defined.

(** Property X11.  The runtime smoke test has three ends.  If [import
    torch] raises, or if the tensor addition and its comparison raise, the
    failure is reported under ['PyTorch'] with the generic remediation and
    the process leaves with status 1; the smoke test is not attempted after
    a failed import.  Otherwise the probe returns normally with nothing
    logged above debug level. *)
Theorem check_env_torch_cases (env : Env) :
  let r := check_env_torch env in
  (forall e, env_import env "torch" = Some e ->
   r = (torch_checking ++ trace (_handle_exception (Some e) e "PyTorch" PNone),
        SystemExit 1)) /\
  (env_import env "torch" = None ->
   (forall e, env_torch_smoke env = Some e ->
    r = (torch_checking ++ torch_smoke_test ::
           trace (_handle_exception (Some e) e "PyTorch" PNone),
         SystemExit 1)) /\
   (env_torch_smoke env = None ->
    r = (torch_checking ++ [torch_smoke_test], Return tt))).
Proof.
  cbv zeta. unfold check_env_torch. run_block. split.
  - intros e ->. reflexivity.
  - intros ->. split; [intros e ->|intros ->]; reflexivity.
Qed.

Lemma check_env_torch_cases_witness :
  check_env_torch env_healthy = (torch_checking ++ [torch_smoke_test], Return tt) /\
  check_env_torch (env_torch_fails no_cuda_error) =
    (torch_checking ++ torch_smoke_test ::
       trace (_handle_exception (Some no_cuda_error) no_cuda_error
                                "PyTorch" PNone),
     SystemExit 1).
Proof.
  destruct (check_env_torch_cases env_healthy) as [_ H].
  destruct (H eq_refl) as [_ Hok].
  destruct (check_env_torch_cases (env_torch_fails no_cuda_error)) as [_ H'].
  destruct (H' eq_refl) as [Hfail _].
  split; [apply Hok|apply Hfail]; reflexivity.
Defined.

(* ===================================================================== *)
(** * The order of the environment probes *)
(* ===================================================================== *)

(** Closes a goal with a hypothesis that an event is in a trace that does
    not have it. *)
Ltac absent_event :=
  repeat match goal with
         | H : In _ (_ ++ _) |- _ => apply in_app_or in H; destruct H as [H|H]
         | H : In _ (_ :: _) |- _ => destruct H as [H|H]; [discriminate|]
         | H : In _ [] |- _ => destruct H
         | H : In ?ev ?t, Hn : ~ In ?ev ?t |- _ => destruct (Hn H)
         end.

Lemma try_import_deeplink_no_triton env device_type :
  ~ In (Import "triton") (trace (try_import_deeplink env device_type)).
Proof.
  unfold try_import_deeplink. cbv zeta.
  destruct (existsb _ _); [|intros []].
  run_block. destruct (env_import env _); simpl; intros H;
    repeat (destruct H as [H|H]; [discriminate|]); destruct H.
Qed.

Lemma check_env_torch_no_triton env :
  ~ In (Import "triton") (trace (check_env_torch env)).
Proof.
  unfold check_env_torch. run_block.
  destruct (env_import env "torch"); [|destruct (env_torch_smoke env)];
    simpl; intros H;
    repeat (destruct H as [H|H]; [discriminate|]); destruct H.
Qed.

(** Property X5.  [check_env] reaches the kernel-compiler probe last and
    only when it has to: if a run of [check_env] imports [triton], then the
    device type is ['cuda'] and both the backend probe and the runtime
    smoke test returned normally.  So a failing runtime smoke test, which
    ends the process, keeps the triton probe from running, and so does any
    other device type. *)
Theorem check_env_triton_probe_last (env : Env) (device_type : string) :
  In (Import "triton") (trace (check_env env device_type)) ->
  device_type = "cuda" /\
  outcome (try_import_deeplink env device_type) = Return tt /\
  outcome (check_env_torch env) = Return tt.
Proof.
  pose proof (try_import_deeplink_no_triton env device_type) as Hd.
  pose proof (check_env_torch_no_triton env) as Ht.
  unfold check_env, check_env_deeplink. run_block.
  destruct (try_import_deeplink env device_type) as [t1 o1].
  destruct (check_env_torch env) as [t2 o2].
  unfold trace, outcome in *. cbn [fst snd] in *.
  destruct o1 as [[]|e1|c1]; cbn [fst snd].
  - destruct o2 as [[]|e2|c2]; cbn [fst snd].
    + destruct (String.eqb device_type "cuda") eqn:Hdev.
      * intros _. apply String.eqb_eq in Hdev. auto.
      * cbn [fst snd]. intros H. absent_event.
    + intros H. absent_event.
    + intros H. absent_event.
  - intros H. absent_event.
  - intros H. absent_event.
Qed.

Lemma check_env_triton_probe_last_witness :
  "cuda" = "cuda" /\
  outcome (try_import_deeplink env_healthy "cuda") = Return tt /\
  outcome (check_env_torch env_healthy) = Return tt.
Proof.
  apply (check_env_triton_probe_last env_healthy "cuda").
  vm_compute. auto 10.
Defined.

(* ===================================================================== *)
(** * Further properties of the kernel-compiler probe *)
(* ===================================================================== *)

(** The trace of a [try] statement that ends normally. *)
Lemma check_env_triton_try_Return_trace env s t l v :
  check_env_triton_try env s = (t, l, Return tt) ->
  parse_version env (env_triton_version env) = inr v ->
  t = triton_checking ++
      (if Version.gtb v v3_0_0 then [triton_version_warning] else []) ++
      triton_smoke_test.
Proof.
  intros Htry Hv. revert Htry. unfold check_env_triton_try. run_block.
  destruct (env_import env "torch"); [discriminate|].
  destruct (env_import env "triton"); [discriminate|].
  rewrite Hv, parse_MAX_TRITON_VERSION. fold v3_0_0.
  destruct (Version.gtb v v3_0_0);
    (destruct (env_import env ".triton_custom_add"); [discriminate|]);
    (destruct (env_triton_smoke env); [discriminate|]);
    intros [= <- _]; reflexivity.
Qed.

(** The statements after the [try] statement log no warning. *)
Lemma check_env_triton_capability_quiet env device l t' l' o :
  check_env_triton_capability env device l = (t', l', o) ->
  forall msg exc_info, ~ In (Log WARNING msg exc_info) t'.
Proof.
  unfold check_env_triton_capability.
  destruct (String.eqb device "cuda").
  - run_block. rewrite parse_2_3_1.
    destruct (l_torch l); [|intros [= <- _ _] msg b []].
    destruct (env_device_capability env) as [e|[major minor]];
      [intros [= <- _ _] msg b [H|[]]; discriminate|].
    cbn [fst]. destruct (major <=? 7)%Z;
      [|intros [= <- _ _] msg b [H|[]]; discriminate].
    destruct (l_triton_version l) as [v|];
      [|intros [= <- _ _] msg b [H|[]]; discriminate].
    destruct (Version.leb v v231);
      intros [= <- _ _] msg b H; simpl in H;
      repeat (destruct H as [H|H]; [discriminate|]); destruct H.
  - intros [= <- _ _] msg b [].
Qed.

(** Property X6.  When the [try] statement of the kernel-compiler probe
    ends normally and [triton.__version__] parses to [v], the probe logs a
    warning if and only if [v > 3.0.0]; the warning is the one that names
    the bound, and it is logged before the custom kernel is imported and
    run.  At 3.0.0 itself nothing is logged above debug level by the [try]
    statement. *)
Theorem check_env_triton_version_warning
        (env : Env) (device : string) (t : list Event) (l : TritonLocals)
        (v : Version.t) :
  check_env_triton_try env triton_locals0 = (t, l, Return tt) ->
  parse_version env (env_triton_version env) = inr v ->
  (warned (check_env_triton env device) <-> Version.gtb v v3_0_0 = true) /\
  (Version.gtb v v3_0_0 = true ->
   t = triton_checking ++ triton_version_warning :: triton_smoke_test) /\
  (Version.gtb v v3_0_0 = false -> t = triton_checking ++ triton_smoke_test) /\
  Version.gtb v3_0_0 v3_0_0 = false.
Proof.
  intros Htry Hv.
  pose proof (check_env_triton_try_Return_trace env _ t l v Htry Hv) as Ht.
  split; [|split; [|split]].
  - unfold warned, check_env_triton, run, bind, try_except. rewrite Htry.
    destruct (check_env_triton_capability env device l) as [[t' l'] o] eqn:Hcap.
    pose proof (check_env_triton_capability_quiet env device l t' l' o Hcap)
      as Hquiet.
    unfold trace, fst. split.
    + intros (msg & b & Hin). apply in_app_or in Hin.
      destruct Hin as [Hin|Hin]; [|destruct (Hquiet msg b Hin)].
      rewrite Ht in Hin. destruct (Version.gtb v v3_0_0); [reflexivity|].
      simpl in Hin. repeat (destruct Hin as [Hin|Hin]; [discriminate|]).
      destruct Hin.
    + intros Hgt. rewrite Hgt in Ht. subst t.
      exists "Engine has not been tested on triton>3.0.0.", false.
      apply in_or_app. left. apply in_or_app. right. left. reflexivity.
  - intros Hgt. rewrite Hgt in Ht. exact Ht.
  - intros Hgt. rewrite Hgt in Ht. exact Ht.
  - reflexivity.
Qed.

Lemma check_env_triton_version_warning_witness :
  warned (check_env_triton (env_triton "3.1.0" (8, 0)%Z) "cuda") /\
  ~ warned (check_env_triton (env_triton "3.0.0" (8, 0)%Z) "cuda").
Proof.
  split.
  - edestruct (check_env_triton_version_warning (env_triton "3.1.0" (8, 0)%Z) "cuda")
      as ([_ H] & _); [reflexivity|reflexivity|].
    apply H. reflexivity.
  - edestruct (check_env_triton_version_warning (env_triton "3.0.0" (8, 0)%Z) "cuda")
      as ([H _] & _); [reflexivity|reflexivity|].
    intros Hw. apply H in Hw. discriminate Hw.
Defined.

(** Property X7.  For a device other than ['cuda'] the probe ends with
    its [try] statement: the device capability is not queried, and a
    normal end of the [try] statement is a normal return of the probe,
    whatever the capability and the triton version. *)
Theorem check_env_triton_other_device
        (env : Env) (device : string) (t : list Event) (l : TritonLocals) :
  check_env_triton_try env triton_locals0 = (t, l, Return tt) ->
  device <> "cuda" ->
  check_env_triton env device = (t, Return tt) /\
  ~ In (Call "torch.cuda.get_device_capability" []) t.
Proof.
  intros Htry Hdev. split.
  - unfold check_env_triton, run, bind, try_except. rewrite Htry.
    rewrite check_env_triton_capability_skip by (apply String.eqb_neq, Hdev).
    rewrite app_nil_r. reflexivity.
  - revert Htry. unfold check_env_triton_try. run_block.
    destruct (env_import env "torch"); [discriminate|].
    destruct (env_import env "triton"); [discriminate|].
    destruct (parse_version env (env_triton_version env)); [discriminate|].
    rewrite parse_MAX_TRITON_VERSION.
    destruct (Version.gtb _ _);
      (destruct (env_import env ".triton_custom_add"); [discriminate|]);
      (destruct (env_triton_smoke env); [discriminate|]);
      intros [= <- _] H; simpl in H;
      repeat (destruct H as [H|H]; [discriminate|]); destruct H.
Qed.

Lemma check_env_triton_other_device_witness :
  outcome (check_env_triton (env_triton "2.3.1" (7, 0)%Z) "npu") = Return tt.
Proof.
  edestruct (check_env_triton_other_device (env_triton "2.3.1" (7, 0)%Z) "npu")
    as [H _]; [reflexivity|discriminate|].
  rewrite H. reflexivity.
Defined.

(** Property X8.  When the [try] statement of the kernel-compiler probe
    raises a [RuntimeError] whose first argument is a number, the handler's
    search for the driver mismatch signature raises [TypeError]: the
    failure is not reported, the process is not ended, and the [TypeError]
    leaves the probe. *)
Theorem check_env_triton_coded_error_raises
        (env : Env) (device : string) (t : list Event) (l : TritonLocals)
        (e : Exn) (z : Z) (rest : list PyVal) :
  check_env_triton_try env triton_locals0 = (t, l, Raise e) ->
  is_RuntimeError e = true ->
  exc_args e = PInt z :: rest ->
  check_env_triton env device =
    (t, Raise (TypeError "argument of type 'int' is not iterable")) /\
  ~ ends_with_report t.
Proof.
  intros Htry Hrt Hargs. split.
  - apply (check_env_triton_numeric_argument env device t l e z rest); assumption.
  - intros (t0 & handling & e' & mod_name & message & Ht).
    assert (Hlast : last t = Some (Log ERROR
              (esc +:+ "[31m<" +:+ mod_name +:+ "> test failed!" +:+ nl +:+
               py_str (if is_None message
                       then PStr "Please ensure it has been installed correctly."
                       else message) +:+ esc +:+ "[0m") false)).
    { rewrite Ht. unfold _handle_exception, trace. run_block. cbn [fst].
      rewrite !app_nil_r. rewrite last_app. reflexivity. }
    revert Htry Hlast. unfold check_env_triton_try. run_block.
    destruct (env_import env "torch");
      [intros [= <- _ _]; discriminate|].
    destruct (env_import env "triton");
      [intros [= <- _ _]; discriminate|].
    destruct (parse_version env (env_triton_version env));
      [intros [= <- _ _]; discriminate|].
    rewrite parse_MAX_TRITON_VERSION.
    destruct (Version.gtb _ _);
      (destruct (env_import env ".triton_custom_add");
         [intros [= <- _ _]; discriminate|]);
      (destruct (env_triton_smoke env);
         [intros [= <- _ _]; discriminate|discriminate]).
Qed.

Lemma check_env_triton_coded_error_raises_witness :
  outcome (check_env_triton (env_triton_fails coded_runtime_error) "cuda") =
    Raise (TypeError "argument of type 'int' is not iterable").
Proof.
  edestruct (check_env_triton_coded_error_raises
               (env_triton_fails coded_runtime_error) "cuda")
    as [H _]; [reflexivity|reflexivity|reflexivity|].
  rewrite H. reflexivity.
Defined.

(** Property X9.  The device capability is queried after the [try]
    statement.  When the query raises, the exception is not reported: it
    leaves the probe as it is, after the trace of the [try] statement and
    the query. *)
Theorem check_env_triton_capability_query_raises
        (env : Env) (t : list Event) (l : TritonLocals) (e : Exn) :
  check_env_triton_try env triton_locals0 = (t, l, Return tt) ->
  env_device_capability env = inl e ->
  check_env_triton env "cuda" =
    (t ++ [Call "torch.cuda.get_device_capability" []], Raise e).
Proof. apply check_env_triton_capability_failure. Qed.

Lemma check_env_triton_capability_query_raises_witness :
  outcome (check_env_triton (env_capability_fails no_cuda_error) "cuda") =
    Raise no_cuda_error.
Proof.
  erewrite (check_env_triton_capability_query_raises
              (env_capability_fails no_cuda_error)); reflexivity.
Defined.

(* ===================================================================== *)
(** * Further properties of the model and configuration probe *)
(* ===================================================================== *)

(** Property X12.  The library version check is fatal in two cases, both
    reported under ['transformers'] with the generic remediation and ended
    with status 1: [import transformers] raises, or [transformers] imports
    and its [__version__] is not a version [version.parse] accepts.  In
    neither case does the check return a version. *)
Theorem check_transformers_version_failures (env : Env) :
  let r := __check_transformers_version env in
  (forall e, env_import env "transformers" = Some e ->
   r = (version_checked ++ trace (_handle_exception (Some e) e
                                                    "transformers" PNone),
        SystemExit 1)) /\
  (env_import env "transformers" = None ->
   forall e, parse_version env (env_transformers_version env) = inl e ->
   r = (version_checked ++ trace (_handle_exception (Some e) e
                                                    "transformers" PNone),
        SystemExit 1)).
Proof.
  cbv zeta. unfold __check_transformers_version. run_block. split.
  - intros e ->. reflexivity.
  - intros -> e. run_block. intros ->. reflexivity.
Qed.

Lemma check_transformers_version_failures_witness :
  __check_transformers_version (env_transformers "unknown") =
    (version_checked ++
       trace (_handle_exception (Some (InvalidVersion "unknown")) (InvalidVersion "unknown")
                                "transformers" PNone),
     SystemExit 1) /\
  outcome (__check_transformers_version (env_missing ["transformers"])) =
    SystemExit 1.
Proof.
  split.
  - destruct (check_transformers_version_failures (env_transformers "unknown"))
      as [_ H].
    apply H; reflexivity.
  - destruct (check_transformers_version_failures (env_missing ["transformers"]))
      as [H _].
    erewrite H; reflexivity.
Defined.

Lemma check_config_failure env model_path trust_remote_code trans_version e :
  env_import env "transformers" = None ->
  env_AutoConfig_from_pretrained env model_path trust_remote_code = inl e ->
  __check_config env model_path trust_remote_code trans_version =
    (config_checked model_path trust_remote_code ++
       trace (_handle_exception (Some e) e "transformers"
                (PStr (config_load_message trans_version))),
     SystemExit 1).
Proof.
  intros Himp Hcfg. unfold __check_config. run_block.
  rewrite Himp. run_block. rewrite Hcfg. reflexivity.
Qed.

(** Property X13.  When the model configuration fails to load,
    [check_model] ends there: after the library version check (with its
    warning, if any) the failure is reported under ['transformers'] with a
    message that names the installed version, the process leaves with
    status 1, and the per-model version check, the dtype check and the
    quantization probe are not run. *)
Theorem check_model_config_load_failure
        (env : Env) (model_path : string) (trust_remote_code : bool)
        (dtype device_type : string) (installed : Version.t) (e : Exn) :
  env_import env "transformers" = None ->
  parse_version env (env_transformers_version env) = inr installed ->
  env_AutoConfig_from_pretrained env model_path trust_remote_code = inl e ->
  check_model env model_path trust_remote_code dtype device_type =
    (Log INFO "Checking model." false ::
       trace (__check_transformers_version env) ++
       config_checked model_path trust_remote_code ++
       trace (_handle_exception (Some e) e "transformers"
                (PStr ("Load model config with transformers==" +:+
                       Version.str installed +:+
                       " failed. Please make sure model can be loaded " +:+
                       "with transformers API."))),
     SystemExit 1).
Proof.
  intros Himp Hv Hcfg.
  unfold check_model, check_transformers_version. run_block.
  rewrite (check_transformers_version_eq env installed Himp Hv).
  cbv beta iota delta [fst snd trace].
  rewrite (check_config_failure env model_path trust_remote_code
             (Some installed) e Himp Hcfg).
  cbv beta iota delta [fst snd]. rewrite <- !app_assoc. reflexivity.
Qed.

Lemma check_model_config_load_failure_witness :
  let r := check_model (env_config_fails config_not_found_error)
                       "/path/to/model" true "auto" "cuda" in
  outcome r = SystemExit 1 /\
  last (trace r) =
    Some (Log ERROR
              (esc +:+ "[31m<transformers> test failed!" +:+ nl +:+
               "Load model config with transformers==4.44.1 failed. " +:+
               "Please make sure model can be loaded with transformers API." +:+
               esc +:+ "[0m")
              false).
Proof.
  cbv zeta.
  rewrite (check_model_config_load_failure
             (env_config_fails config_not_found_error)
             "/path/to/model" true "auto" "cuda" v4_44_1 config_not_found_error
             eq_refl eq_refl eq_refl).
  split; reflexivity.
Defined.

(** Property X14.  When the configuration declares a library version that
    [version.parse] rejects, the per-model version check is fatal: the
    parse error is reported under ['transformers'], the message names the
    declared string as it stands in the configuration together with the
    installed version, and the process leaves with status 1. *)
Theorem check_model_version_unparsable
        (env : Env) (model_path : string) (cfg : HfConfig.t)
        (trans_version : option Version.t) (s : string) (e : Exn) :
  HfConfig.transformers_version cfg = Some s ->
  parse_version env s = inl e ->
  __check_model_transformers_version env model_path cfg trans_version =
    (model_version_checking ::
       trace (_handle_exception (Some e) e "transformers"
                (PStr (unparsed_requirement_message model_path s trans_version))),
     SystemExit 1).
Proof.
  intros Hattr Hparse. unfold __check_model_transformers_version.
  rewrite Hattr. run_block. rewrite Hparse. reflexivity.
Qed.

Lemma check_model_version_unparsable_witness :
  __check_model_transformers_version
    env_healthy "/path/to/model" (cfg_requires "latest") (Some v4_44_1) =
    (model_version_checking ::
       trace (_handle_exception
                (Some (InvalidVersion "latest"))
                (InvalidVersion "latest") "transformers"
                (PStr ("model `/path/to/model` requires transformers version " +:+
                       "latest but transformers 4.44.1 is installed."))),
     SystemExit 1).
Proof.
  exact (check_model_version_unparsable
           env_healthy "/path/to/model" (cfg_requires "latest") (Some v4_44_1)
           "latest" (InvalidVersion "latest") eq_refl eq_refl).
Defined.

Lemma dtype_eqb_bfloat16 d : dtype_eqb d bfloat16 = true <-> d = bfloat16.
Proof. destruct d; simpl; split; congruence. Qed.

(** Property X15.  Let the imports of the dtype check succeed and
    [ModelConfig.from_hf_config] return a model configuration.  If its
    dtype is not bfloat16 the check returns it without asking whether the
    device supports bfloat16.  If it is bfloat16, the device is asked: on
    a device that supports it the check returns the model configuration;
    on one that does not, the failed assertion is reported under ['Model']
    with a message that names [torch.bfloat16] and proposes float16, and
    the process leaves with status 1. *)
Theorem check_model_dtype_support_bf16
        (env : Env) (model_path dtype : string) (cfg : HfConfig.t)
        (device_type : string) (mc : ModelConfig.t) :
  dtype_imports_ok env ->
  env_from_hf_config env cfg model_path dtype = inr mc ->
  let r := __check_model_dtype_support env model_path dtype cfg device_type in
  (ModelConfig.dtype mc <> bfloat16 ->
   r = (dtype_checked model_path dtype, Return mc)) /\
  (ModelConfig.dtype mc = bfloat16 ->
   (env_is_bf16_supported env device_type = inr true ->
    r = (dtype_checked model_path dtype ++ [bf16_query device_type], Return mc)) /\
   (env_is_bf16_supported env device_type = inr false ->
    r = (dtype_checked model_path dtype ++ bf16_query device_type ::
           trace (_handle_exception (Some bf16_error) bf16_error
                                    "Model" (PStr bf16_message)),
         SystemExit 1))).
Proof.
  intros (H1 & H2 & H3) Hmc. cbv zeta.
  unfold __check_model_dtype_support. run_block.
  rewrite H1, H2, H3. run_block. rewrite Hmc. run_block.
  split.
  - intros Hd. destruct (dtype_eqb (ModelConfig.dtype mc) bfloat16) eqn:Heq.
    + apply dtype_eqb_bfloat16 in Heq. contradiction.
    + reflexivity.
  - destruct mc as [d]. cbn [ModelConfig.dtype]. intros ->. cbn [dtype_eqb].
    split; intros ->; reflexivity.
Qed.

Lemma check_model_dtype_support_bf16_witness :
  __check_model_dtype_support (env_bf16 false) "/path/to/model" "auto"
                              cfg_plain "cuda" =
    (dtype_checked "/path/to/model" "auto" ++ bf16_query "cuda" ::
       trace (_handle_exception (Some bf16_error) bf16_error
                                "Model" (PStr bf16_message)),
     SystemExit 1) /\
  __check_model_dtype_support (env_bf16 true) "/path/to/model" "auto"
                              cfg_plain "cuda" =
    (dtype_checked "/path/to/model" "auto" ++ [bf16_query "cuda"],
     Return (ModelConfig.mk bfloat16)) /\
  __check_model_dtype_support env_healthy "/path/to/model" "auto"
                              cfg_plain "cuda" =
    (dtype_checked "/path/to/model" "auto", Return (ModelConfig.mk float16)).
Proof.
  split; [|split].
  - edestruct (check_model_dtype_support_bf16 (env_bf16 false) "/path/to/model"
                 "auto" cfg_plain "cuda") as [_ H];
      [repeat split|reflexivity|].
    destruct (H eq_refl) as [_ Hno]. apply Hno. reflexivity.
  - edestruct (check_model_dtype_support_bf16 (env_bf16 true) "/path/to/model"
                 "auto" cfg_plain "cuda") as [_ H];
      [repeat split|reflexivity|].
    destruct (H eq_refl) as [Hyes _]. apply Hyes. reflexivity.
  - edestruct (check_model_dtype_support_bf16 env_healthy "/path/to/model"
                 "auto" cfg_plain "cuda") as [H _];
      [repeat split|reflexivity|].
    apply H. discriminate.
Defined.

(** Property X16.  When [ModelConfig.from_hf_config] raises an exception
    that is not an [AssertionError], the dtype check reports it under
    ['Model'] and the process leaves with status 1.  The message it hands
    to the reporter is not a string but a pair of strings, so the
    remediation text of the report is the rendering of a tuple:
    parenthesised, each string as [repr] writes it (quoted, with the
    characters that are not printable escaped), separated by a comma. *)
Theorem check_model_dtype_support_pair_message
        (env : Env) (model_path dtype : string) (cfg : HfConfig.t)
        (device_type : string) (e : Exn) :
  dtype_imports_ok env ->
  env_from_hf_config env cfg model_path dtype = inl e ->
  is_AssertionError e = false ->
  __check_model_dtype_support env model_path dtype cfg device_type =
    (dtype_checked model_path dtype ++
       trace (_handle_exception (Some e) e "Model" (dtype_failure_message e)),
     SystemExit 1) /\
  py_str (dtype_failure_message e) =
    "(" +:+
    (repr_str ("Checking failed with error " +:+ exc_str e) +:+
     ", 'Please send issue to LMDeploy with error logs.'") +:+
    ")".
Proof.
  intros (H1 & H2 & H3) Hmc Hfam. split; [|reflexivity].
  unfold __check_model_dtype_support. run_block.
  rewrite H1, H2, H3. run_block. rewrite Hmc. run_block. rewrite Hfam.
  reflexivity.
Qed.

Lemma check_model_dtype_support_pair_message_witness :
  let r := __check_model_dtype_support
             (env_model cfg_plain (inl unsupported_model_error))
             "/path/to/model" "auto" cfg_plain "cuda" in
  let r' := __check_model_dtype_support
              (env_model cfg_plain (inl no_break_space_error))
              "/path/to/model" "auto" cfg_plain "cuda" in
  outcome r = SystemExit 1 /\
  last (trace r) =
    Some (Log ERROR
              (esc +:+ "[31m<Model> test failed!" +:+ nl +:+
               "('Checking failed with error unsupported model', " +:+
               "'Please send issue to LMDeploy with error logs.')" +:+
               esc +:+ "[0m")
              false) /\
  outcome r' = SystemExit 1 /\
  last (trace r') =
    Some (Log ERROR
              (esc +:+ "[31m<Model> test failed!" +:+ nl +:+
               "('Checking failed with error bad\xa0value', " +:+
               "'Please send issue to LMDeploy with error logs.')" +:+
               esc +:+ "[0m")
              false).
Proof.
  cbv zeta.
  edestruct (check_model_dtype_support_pair_message
               (env_model cfg_plain (inl unsupported_model_error))
               "/path/to/model" "auto" cfg_plain "cuda")
    as [H _]; [repeat split|reflexivity|reflexivity|].
  edestruct (check_model_dtype_support_pair_message
               (env_model cfg_plain (inl no_break_space_error))
               "/path/to/model" "auto" cfg_plain "cuda")
    as [H' _]; [repeat split|reflexivity|reflexivity|].
  rewrite H, H'. repeat split; reflexivity.
Defined.

(* ===================================================================== *)
(** * The model check on a host that meets the requirements *)
(* ===================================================================== *)

Lemma check_awq_skip env cfg device_type :
  ~ (device_type = "cuda" /\ declares_awq cfg) ->
  check_awq env cfg device_type = ([], Return tt).
Proof.
  intros Hnot. unfold check_awq.
  destruct (String.eqb device_type "cuda") eqn:Hdev; [|reflexivity].
  apply String.eqb_eq in Hdev.
  destruct (eq_str "awq" _) eqn:Hq; [|reflexivity].
  destruct Hnot. split; [assumption|]. apply declares_awq_quant_method, Hq.
Qed.

Lemma check_model_dtype_support_returns
      env model_path dtype cfg device_type mc :
  dtype_imports_ok env ->
  env_from_hf_config env cfg model_path dtype = inr mc ->
  dtype_supported env mc device_type ->
  __check_model_dtype_support env model_path dtype cfg device_type =
    (dtype_checked model_path dtype ++
       (if dtype_eqb (ModelConfig.dtype mc) bfloat16
        then [bf16_query device_type] else []),
     Return mc).
Proof.
  intros (H1 & H2 & H3) Hmc Hsup.
  unfold __check_model_dtype_support. run_block.
  rewrite H1, H2, H3. run_block. rewrite Hmc. run_block.
  destruct (dtype_eqb (ModelConfig.dtype mc) bfloat16) eqn:Heq; [|reflexivity].
  destruct Hsup as [Hne|Hyes].
  - apply dtype_eqb_bfloat16 in Heq. contradiction.
  - rewrite Hyes. reflexivity.
Qed.

(** Property X17.  On a host that meets every requirement, [check_model]
    returns normally, which is what lets the process go on to exit with
    status 0.  The requirements are: [transformers] imports and its version
    parses; the configuration loads and declares no library version above
    the installed one; the imports of the dtype check succeed and the
    model's dtype is one the device can run; and the AWQ probe does not
    apply.  The sub-checks run in the order version, configuration,
    per-model version, dtype, quantization.  Nothing is logged at error
    level; the only record above info level is the version warning, present
    when the installed version is outside the tested range. *)
Theorem check_model_passes
        (env : Env) (model_path : string) (trust_remote_code : bool)
        (dtype device_type : string) (installed : Version.t)
        (cfg : HfConfig.t) (mc : ModelConfig.t) :
  env_import env "transformers" = None ->
  parse_version env (env_transformers_version env) = inr installed ->
  env_AutoConfig_from_pretrained env model_path trust_remote_code = inr cfg ->
  requirement_met env cfg installed ->
  dtype_imports_ok env ->
  env_from_hf_config env cfg model_path dtype = inr mc ->
  dtype_supported env mc device_type ->
  ~ (device_type = "cuda" /\ declares_awq cfg) ->
  let r := check_model env model_path trust_remote_code dtype device_type in
  r = (Log INFO "Checking model." false ::
         version_checked ++
         (if outside_range installed
          then [version_warning (env_transformers_version env)] else []) ++
         config_checked model_path trust_remote_code ++
         model_version_checking ::
         dtype_checked model_path dtype ++
         (if dtype_eqb (ModelConfig.dtype mc) bfloat16
          then [bf16_query device_type] else []),
       Return tt) /\
  no_error_logged (trace r) /\
  (warned r <-> outside_range installed = true).
Proof.
  intros Himp Hv Hcfg Hreq Hdimp Hmc Hsup Hawq. cbv zeta.
  assert (Hr : check_model env model_path trust_remote_code dtype device_type =
               (Log INFO "Checking model." false ::
                  version_checked ++
                  (if outside_range installed
                   then [version_warning (env_transformers_version env)] else []) ++
                  config_checked model_path trust_remote_code ++
                  model_version_checking ::
                  dtype_checked model_path dtype ++
                  (if dtype_eqb (ModelConfig.dtype mc) bfloat16
                   then [bf16_query device_type] else []),
                Return tt)).
  { unfold check_model, check_transformers_version. run_block.
    rewrite (check_transformers_version_eq env installed Himp Hv).
    cbv beta iota delta [fst snd].
    rewrite (check_config_eq env model_path trust_remote_code (Some installed)
               cfg Himp Hcfg).
    cbv beta iota delta [fst snd].
    rewrite (check_model_version_ok env model_path cfg installed Hreq).
    cbv beta iota delta [fst snd].
    rewrite (check_model_dtype_support_returns env model_path dtype cfg
               device_type mc Hdimp Hmc Hsup).
    cbv beta iota delta [fst snd].
    rewrite (check_awq_skip env cfg device_type Hawq).
    cbv beta iota delta [fst snd].
    rewrite !app_nil_r, <- !app_assoc. reflexivity. }
  rewrite Hr. split; [reflexivity|split].
  - intros msg b H. unfold trace, fst in H.
    destruct (outside_range installed),
             (dtype_eqb (ModelConfig.dtype mc) bfloat16);
      simpl in H; repeat (destruct H as [H|H]; [discriminate|]); destruct H.
  - unfold warned, trace, fst. split.
    + intros (msg & b & H).
      destruct (outside_range installed); [reflexivity|].
      destruct (dtype_eqb (ModelConfig.dtype mc) bfloat16);
        simpl in H; repeat (destruct H as [H|H]; [discriminate|]); destruct H.
    + intros ->.
      exists ("LMDeploy requires transformers version: [4.33.0 ~ 4.44.1], " +:+
              "but found version: " +:+ env_transformers_version env), false.
      right. right. right. left. reflexivity.
Qed.

Lemma check_model_passes_witness :
  outcome (check_model env_healthy "/path/to/model" true "auto" "cuda") =
    Return tt /\
  outcome (check_model (env_bf16 true) "/path/to/model" true "auto" "cuda") =
    Return tt /\
  warned (check_model env_old_transformers "/path/to/model" true "auto" "cuda").
Proof.
  split; [|split].
  - edestruct (check_model_passes env_healthy "/path/to/model" true "auto" "cuda")
      as (H & _);
      [reflexivity|reflexivity|reflexivity|left; reflexivity|repeat split
      |reflexivity|left; discriminate
      |intros [_ (section & Hs & _)]; discriminate Hs|].
    rewrite H. reflexivity.
  - edestruct (check_model_passes (env_bf16 true) "/path/to/model" true "auto" "cuda")
      as (H & _);
      [reflexivity|reflexivity|reflexivity|left; reflexivity|repeat split
      |reflexivity|right; reflexivity
      |intros [_ (section & Hs & _)]; discriminate Hs|].
    rewrite H. reflexivity.
  - edestruct (check_model_passes env_old_transformers "/path/to/model" true
                 "auto" "cuda")
      as (_ & _ & H);
      [reflexivity|reflexivity|reflexivity|left; reflexivity|repeat split
      |reflexivity|left; discriminate
      |intros [_ (section & Hs & _)]; discriminate Hs|].
    apply H. reflexivity.
Defined.

(** Property X18.  Five probes never let an exception out, whatever the
    host and the arguments: the backend probe, the runtime smoke test, the
    library version check, the configuration load and the per-model
    version check each either return to their caller or end the process
    with status 1. *)
Theorem guarded_probes_settled
        (env : Env) (device_type model_path : string) (trust_remote_code : bool)
        (cfg : HfConfig.t) (trans_version : option Version.t) :
  settled (try_import_deeplink env device_type) /\
  settled (check_env_torch env) /\
  settled (__check_transformers_version env) /\
  settled (__check_config env model_path trust_remote_code trans_version) /\
  settled (__check_model_transformers_version env model_path cfg trans_version).
Proof.
  repeat split.
  - apply try_import_deeplink_settled.
  - apply check_env_torch_settled.
  - apply check_transformers_version_settled.
  - apply check_config_settled.
  - apply check_model_transformers_version_settled.
Qed.

(* ===================================================================== *)
(** * Every exit goes through the diagnostic reporter *)
(* ===================================================================== *)

Lemma ends_with_report_app (t t' : list Event) :
  ends_with_report t' -> ends_with_report (t ++ t').
Proof.
  intros (t0 & handling & e & mod_name & message & ->).
  exists (t ++ t0), handling, e, mod_name, message. apply app_assoc.
Qed.

Section ExitRules.
Context {S : Type}.

Lemma er_bind {A B} (m : M S A) (f : A -> M S B) :
  exits_reported m -> (forall a, exits_reported (f a)) ->
  exits_reported (bind m f).
Proof.
  intros Hm Hf s t s' c. unfold bind.
  destruct (m s) as [[t1 s1] [a|e|c1]] eqn:Hms.
  - destruct (f a s1) as [[t2 s2] o] eqn:Hfs. intros [= <- <- ->].
    destruct (Hf a s1 t2 s2 c Hfs) as [Hc Hrep].
    split; [exact Hc|apply ends_with_report_app, Hrep].
  - discriminate.
  - intros [= <- <- <-]. exact (Hm s t1 s1 c1 Hms).
Qed.

Lemma er_try_except {A} (body : M S A) (handler : Exn -> M S A) :
  exits_reported body -> (forall e, exits_reported (handler e)) ->
  exits_reported (try_except body handler).
Proof.
  intros Hb Hh s t s' c. unfold try_except.
  destruct (body s) as [[t1 s1] [a|e|c1]] eqn:Hbs.
  - discriminate.
  - destruct (handler e s1) as [[t2 s2] o] eqn:Hhs. intros [= <- <- ->].
    destruct (Hh e s1 t2 s2 c Hhs) as [Hc Hrep].
    split; [exact Hc|apply ends_with_report_app, Hrep].
  - intros [= <- <- <-]. exact (Hb s t1 s1 c1 Hbs).
Qed.

Lemma er_call {A} (r : Res A) : exit_reported r -> exits_reported (call r : M S A).
Proof.
  intros Hr s t s' c. unfold call. intros [= <- <- Ho]. exact (Hr c Ho).
Qed.

Lemma er_ret {A} (a : A) : exits_reported (ret a : M S A).
Proof. intros s t s' c. discriminate. Qed.

Lemma er_emit ev : exits_reported (emit ev : M S unit).
Proof. intros s t s' c. discriminate. Qed.

Lemma er_modify (f : S -> S) : exits_reported (modify f).
Proof. intros s t s' c. discriminate. Qed.

Lemma er_get : exits_reported (get : M S S).
Proof. intros s t s' c. discriminate. Qed.

Lemma er_raise {A} e : exits_reported (raise e : M S A).
Proof. intros s t s' c. discriminate. Qed.

Lemma er_answer {A} (r : Exn + A) : exits_reported (answer r : M S A).
Proof. destruct r; [apply er_raise|apply er_ret]. Qed.

Lemma er_import env name : exits_reported (import env name : M S unit).
Proof.
  unfold import. apply er_bind; [apply er_emit|intros _].
  destruct (env_import env name); [apply er_raise|apply er_ret].
Qed.

Lemma er_perform fn args r : exits_reported (perform fn args r : M S unit).
Proof.
  unfold perform. apply er_bind; [apply er_emit|intros _].
  destruct r; [apply er_raise|apply er_ret].
Qed.

Lemma er_ask {A} fn args (r : Exn + A) : exits_reported (ask fn args r : M S A).
Proof. unfold ask. apply er_bind; [apply er_emit|intros _; apply er_answer]. Qed.

Lemma er_read {A} name (proj : S -> option A) : exits_reported (read name proj).
Proof.
  unfold read. apply er_bind; [apply er_get|intros s].
  destruct (proj s); [apply er_ret|apply er_raise].
Qed.

Lemma er_assert cond msg : exits_reported (assert cond msg : M S unit).
Proof. unfold assert. destruct cond; [apply er_ret|apply er_raise]. Qed.

Lemma er_when (b : bool) (m : M S unit) :
  exits_reported m -> exits_reported (when b m).
Proof. intros Hm. destruct b; [exact Hm|apply er_ret]. Qed.

Lemma er_for_each {A} (l : list A) (f : A -> M S unit) :
  (forall x, exits_reported (f x)) -> exits_reported (for_each l f).
Proof.
  intros Hf. induction l as [|x l IH]; simpl.
  - apply er_ret.
  - apply er_bind; [apply Hf|intros _; exact IH].
Qed.

Lemma er_run {A} (s0 : S) (m : M S A) :
  exits_reported m -> exit_reported (run s0 m).
Proof.
  intros Hm c. unfold run, outcome, trace.
  destruct (m s0) as [[t s'] o] eqn:Hms. simpl. intros ->.
  exact (Hm s0 t s' c Hms).
Qed.

End ExitRules.

Lemma handle_exception_exit_reported handling e mod_name message :
  exit_reported (_handle_exception handling e mod_name message).
Proof.
  intros c Hc. split.
  - change (outcome (_handle_exception handling e mod_name message))
      with (SystemExit 1 : Outcome unit) in Hc. congruence.
  - exists [], handling, e, mod_name, message. reflexivity.
Qed.

(** One step of a derivation that a block only exits through the
    reporter, chosen by the head of the block. *)
Ltac er_step :=
  cbv beta zeta;
  lazymatch goal with
  | |- exit_reported (run _ _) => apply er_run
  | |- exit_reported (_handle_exception _ _ _ _) =>
      apply handle_exception_exit_reported
  | |- exits_reported (bind _ _) => apply er_bind; [|intros ?]
  | |- exits_reported (try_except _ _) => apply er_try_except; [|intros ?]
  | |- exits_reported (call _) => apply er_call
  | |- exits_reported (ret _) => apply er_ret
  | |- exits_reported (emit _) => apply er_emit
  | |- exits_reported (log _ _) => apply er_emit
  | |- exits_reported (log_exc_info _ _ _) => apply er_emit
  | |- exits_reported (modify _) => apply er_modify
  | |- exits_reported get => apply er_get
  | |- exits_reported (raise _) => apply er_raise
  | |- exits_reported (answer _) => apply er_answer
  | |- exits_reported (version_parse _ _) => apply er_answer
  | |- exits_reported (version_ge _ _) => unfold version_ge
  | |- exits_reported (has_ptxas_error _) => unfold has_ptxas_error
  | |- exits_reported (import _ _) => apply er_import
  | |- exits_reported (perform _ _ _) => apply er_perform
  | |- exits_reported (ask _ _ _) => apply er_ask
  | |- exits_reported (read _ _) => apply er_read
  | |- exits_reported (assert _ _) => apply er_assert
  | |- exits_reported (when _ _) => apply er_when
  | |- exits_reported (for_each _ _) => apply er_for_each; intros ?
  | |- exits_reported (if ?b then _ else _) => destruct b
  | |- exits_reported (match ?x with _ => _ end) => destruct x
  end.

Lemma try_import_deeplink_exit_reported env device_type :
  exit_reported (try_import_deeplink env device_type).
Proof. unfold try_import_deeplink. repeat er_step. Qed.

Lemma check_env_torch_exit_reported env : exit_reported (check_env_torch env).
Proof. unfold check_env_torch. repeat er_step. Qed.

Lemma check_env_triton_exit_reported env device :
  exit_reported (check_env_triton env device).
Proof.
  unfold check_env_triton, check_env_triton_try, check_env_triton_except,
    check_env_triton_capability.
  repeat er_step.
Qed.

Lemma check_awq_exit_reported env cfg device_type :
  exit_reported (check_awq env cfg device_type).
Proof. unfold check_awq. repeat er_step. Qed.

Lemma check_transformers_version_exit_reported env model_path trust dtype device_type :
  exit_reported (check_transformers_version env model_path trust dtype device_type).
Proof.
  unfold check_transformers_version.
  repeat er_step.
  - unfold __check_transformers_version. repeat er_step.
  - unfold __check_config. repeat er_step.
  - unfold __check_model_transformers_version. repeat er_step.
  - unfold __check_model_dtype_support. repeat er_step.
  - apply check_awq_exit_reported.
Qed.

Lemma check_adapter_exit_reported env path : exit_reported (check_adapter env path).
Proof.
  unfold check_adapter, check_adapter_try, check_adapter_except.
  repeat er_step.
Qed.

(** Property X4.  The process is only ever ended by the diagnostic
    reporter.  Whenever a run of [check_env], [check_model] or
    [check_adapters] leaves through [exit], the status is 1 and the last
    three records of the trace are a diagnostic report: the debug record,
    the failure summary and the framed remediation. *)
Theorem entry_points_exit_through_reporter
        (env : Env) (device_type model_path dtype : string)
        (trust_remote_code : bool) (adapter_paths : list string) :
  exit_reported (check_env env device_type) /\
  exit_reported (check_model env model_path trust_remote_code dtype device_type) /\
  exit_reported (check_adapters env adapter_paths).
Proof.
  split; [|split].
  - unfold check_env, check_env_deeplink. repeat er_step.
    + apply try_import_deeplink_exit_reported.
    + apply check_env_torch_exit_reported.
    + apply check_env_triton_exit_reported.
  - unfold check_model. repeat er_step.
    apply check_transformers_version_exit_reported.
  - unfold check_adapters. repeat er_step.
    apply check_adapter_exit_reported.
Qed.

Lemma entry_points_exit_through_reporter_witness :
  1%Z = 1%Z /\
  ends_with_report
    (trace (check_adapters (env_adapter_fails bare_error) ["adapter"])).
Proof.
  exact (proj2 (proj2 (entry_points_exit_through_reporter
                         (env_adapter_fails bare_error) "cuda" "/path/to/model"
                         "auto" true ["adapter"]))
               1%Z eq_refl).
Defined.

(* ===================================================================== *)
(** * Error records are only written on the way out *)
(* ===================================================================== *)

Lemma no_error_logged_app (t t' : list Event) :
  no_error_logged t -> no_error_logged t' -> no_error_logged (t ++ t').
Proof.
  intros Ht Ht' msg b Hin. apply in_app_or in Hin.
  destruct Hin as [Hin|Hin]; [exact (Ht msg b Hin)|exact (Ht' msg b Hin)].
Qed.

Lemma no_error_logged_nil : no_error_logged [].
Proof. intros msg b []. Qed.

Section ErrorRules.
Context {S : Type}.

Lemma eo_bind {A B} (m : M S A) (f : A -> M S B) :
  errors_mean_exit m -> (forall a, errors_mean_exit (f a)) ->
  errors_mean_exit (bind m f).
Proof.
  intros Hm Hf s t s' o. unfold bind.
  destruct (m s) as [[t1 s1] [a|e|c1]] eqn:Hms.
  - destruct (f a s1) as [[t2 s2] o2] eqn:Hfs. intros [= <- <- <-] Ho.
    apply no_error_logged_app.
    + apply (Hm s t1 s1 (Return a) Hms). intros c. discriminate.
    + exact (Hf a s1 t2 s2 o2 Hfs Ho).
  - intros [= <- <- <-] Ho. apply (Hm s t1 s1 (Raise e) Hms).
    intros c. discriminate.
  - intros [= <- <- <-] Ho. destruct (Ho c1). reflexivity.
Qed.

Lemma eo_try_except {A} (body : M S A) (handler : Exn -> M S A) :
  errors_mean_exit body -> (forall e, errors_mean_exit (handler e)) ->
  errors_mean_exit (try_except body handler).
Proof.
  intros Hb Hh s t s' o. unfold try_except.
  destruct (body s) as [[t1 s1] [a|e|c1]] eqn:Hbs.
  - intros [= <- <- <-] Ho. exact (Hb s t1 s1 (Return a) Hbs Ho).
  - destruct (handler e s1) as [[t2 s2] o2] eqn:Hhs. intros [= <- <- <-] Ho.
    apply no_error_logged_app.
    + apply (Hb s t1 s1 (Raise e) Hbs). intros c. discriminate.
    + exact (Hh e s1 t2 s2 o2 Hhs Ho).
  - intros [= <- <- <-] Ho. destruct (Ho c1). reflexivity.
Qed.

Lemma eo_call {A} (r : Res A) :
  error_means_exit r -> errors_mean_exit (call r : M S A).
Proof.
  intros Hr s t s' o. unfold call. intros [= <- <- <-] Ho. exact (Hr Ho).
Qed.

Lemma eo_silent {A} (m : M S A) :
  (forall s, fst (fst (m s)) = []) -> errors_mean_exit m.
Proof.
  intros Hm s t s' o Hms _. specialize (Hm s). rewrite Hms in Hm.
  simpl in Hm. subst t. apply no_error_logged_nil.
Qed.

Lemma eo_ret {A} (a : A) : errors_mean_exit (ret a : M S A).
Proof. apply eo_silent. reflexivity. Qed.

Lemma eo_modify (f : S -> S) : errors_mean_exit (modify f).
Proof. apply eo_silent. reflexivity. Qed.

Lemma eo_get : errors_mean_exit (get : M S S).
Proof. apply eo_silent. reflexivity. Qed.

Lemma eo_raise {A} e : errors_mean_exit (raise e : M S A).
Proof. apply eo_silent. reflexivity. Qed.

Lemma eo_answer {A} (r : Exn + A) : errors_mean_exit (answer r : M S A).
Proof. destruct r; [apply eo_raise|apply eo_ret]. Qed.

Lemma eo_emit ev :
  (forall msg exc_info, ev <> Log ERROR msg exc_info) ->
  errors_mean_exit (emit ev : M S unit).
Proof.
  intros Hev s t s' o. unfold emit. intros [= <- <- <-] _ msg b [H|[]].
  exact (Hev msg b H).
Qed.

Lemma eo_import env name : errors_mean_exit (import env name : M S unit).
Proof.
  unfold import. apply eo_bind; [apply eo_emit; discriminate|intros _].
  destruct (env_import env name); [apply eo_raise|apply eo_ret].
Qed.

Lemma eo_perform fn args r : errors_mean_exit (perform fn args r : M S unit).
Proof.
  unfold perform. apply eo_bind; [apply eo_emit; discriminate|intros _].
  destruct r; [apply eo_raise|apply eo_ret].
Qed.

Lemma eo_ask {A} fn args (r : Exn + A) : errors_mean_exit (ask fn args r : M S A).
Proof.
  unfold ask. apply eo_bind; [apply eo_emit; discriminate|intros _].
  apply eo_answer.
Qed.

Lemma eo_read {A} name (proj : S -> option A) : errors_mean_exit (read name proj).
Proof.
  unfold read. apply eo_bind; [apply eo_get|intros s].
  destruct (proj s); [apply eo_ret|apply eo_raise].
Qed.

Lemma eo_assert cond msg : errors_mean_exit (assert cond msg : M S unit).
Proof. unfold assert. destruct cond; [apply eo_ret|apply eo_raise]. Qed.

Lemma eo_when (b : bool) (m : M S unit) :
  errors_mean_exit m -> errors_mean_exit (when b m).
Proof. intros Hm. destruct b; [exact Hm|apply eo_ret]. Qed.

Lemma eo_for_each {A} (l : list A) (f : A -> M S unit) :
  (forall x, errors_mean_exit (f x)) -> errors_mean_exit (for_each l f).
Proof.
  intros Hf. induction l as [|x l IH]; simpl.
  - apply eo_ret.
  - apply eo_bind; [apply Hf|intros _; exact IH].
Qed.

Lemma eo_run {A} (s0 : S) (m : M S A) :
  errors_mean_exit m -> error_means_exit (run s0 m).
Proof.
  intros Hm. unfold error_means_exit, run, outcome, trace.
  destruct (m s0) as [[t s'] o] eqn:Hms. simpl. intros Ho.
  exact (Hm s0 t s' o Hms Ho).
Qed.

End ErrorRules.

Lemma handle_exception_error_means_exit handling e mod_name message :
  error_means_exit (_handle_exception handling e mod_name message).
Proof. intros Ho. destruct (Ho 1%Z). reflexivity. Qed.

(** One step of a derivation that a block writes error records only on
    the way out, chosen by the head of the block. *)
Ltac eo_step :=
  cbv beta zeta;
  lazymatch goal with
  | |- error_means_exit (run _ _) => apply eo_run
  | |- error_means_exit (_handle_exception _ _ _ _) =>
      apply handle_exception_error_means_exit
  | |- errors_mean_exit (bind _ _) => apply eo_bind; [|intros ?]
  | |- errors_mean_exit (try_except _ _) => apply eo_try_except; [|intros ?]
  | |- errors_mean_exit (call _) => apply eo_call
  | |- errors_mean_exit (ret _) => apply eo_ret
  | |- errors_mean_exit (emit _) => apply eo_emit; discriminate
  | |- errors_mean_exit (log _ _) => apply eo_emit; discriminate
  | |- errors_mean_exit (log_exc_info _ _ _) => apply eo_emit; discriminate
  | |- errors_mean_exit (modify _) => apply eo_modify
  | |- errors_mean_exit get => apply eo_get
  | |- errors_mean_exit (raise _) => apply eo_raise
  | |- errors_mean_exit (answer _) => apply eo_answer
  | |- errors_mean_exit (version_parse _ _) => apply eo_answer
  | |- errors_mean_exit (version_ge _ _) => unfold version_ge
  | |- errors_mean_exit (has_ptxas_error _) => unfold has_ptxas_error
  | |- errors_mean_exit (import _ _) => apply eo_import
  | |- errors_mean_exit (perform _ _ _) => apply eo_perform
  | |- errors_mean_exit (ask _ _ _) => apply eo_ask
  | |- errors_mean_exit (read _ _) => apply eo_read
  | |- errors_mean_exit (assert _ _) => apply eo_assert
  | |- errors_mean_exit (when _ _) => apply eo_when
  | |- errors_mean_exit (for_each _ _) => apply eo_for_each; intros ?
  | |- errors_mean_exit (if ?b then _ else _) => destruct b
  | |- errors_mean_exit (match ?x with _ => _ end) => destruct x
  end.

Lemma check_env_triton_error_means_exit env device :
  error_means_exit (check_env_triton env device).
Proof.
  unfold check_env_triton, check_env_triton_try, check_env_triton_except,
    check_env_triton_capability.
  repeat eo_step.
Qed.

Lemma check_transformers_version_error_means_exit
      env model_path trust dtype device_type :
  error_means_exit
    (check_transformers_version env model_path trust dtype device_type).
Proof.
  unfold check_transformers_version. repeat eo_step.
  - unfold __check_transformers_version. repeat eo_step.
  - unfold __check_config. repeat eo_step.
  - unfold __check_model_transformers_version. repeat eo_step.
  - unfold __check_model_dtype_support. repeat eo_step.
  - unfold check_awq. repeat eo_step.
Qed.

(** Property X19.  Records at error level are written by the diagnostic
    reporter alone, which then ends the process.  So a run of [check_env],
    [check_model] or [check_adapters] that does not end the process,
    whether it returns or an exception leaves it, has logged nothing at
    error level. *)
Theorem entry_points_error_means_exit
        (env : Env) (device_type model_path dtype : string)
        (trust_remote_code : bool) (adapter_paths : list string) :
  error_means_exit (check_env env device_type) /\
  error_means_exit
    (check_model env model_path trust_remote_code dtype device_type) /\
  error_means_exit (check_adapters env adapter_paths).
Proof.
  split; [|split].
  - unfold check_env, check_env_deeplink. repeat eo_step.
    + unfold try_import_deeplink. repeat eo_step.
    + unfold check_env_torch. repeat eo_step.
    + apply check_env_triton_error_means_exit.
  - unfold check_model. repeat eo_step.
    apply check_transformers_version_error_means_exit.
  - unfold check_adapters. repeat eo_step.
    unfold check_adapter, check_adapter_try, check_adapter_except.
    repeat eo_step.
Qed.

Lemma entry_points_error_means_exit_witness :
  no_error_logged
    (trace (check_adapters (env_adapter_fails permission_error) ["adapter"])).
Proof.
  apply (proj2 (proj2 (entry_points_error_means_exit
                         (env_adapter_fails permission_error) "cuda"
                         "/path/to/model" "auto" true ["adapter"]))).
  intros c. discriminate.
Defined.

(* ===================================================================== *)
(** * The environment check on a host that meets the requirements *)
(* ===================================================================== *)

Lemma try_import_deeplink_returns env device_type :
  (is_deeplink_device device_type = true ->
   env_import env deeplink_module = None) ->
  try_import_deeplink env device_type =
    ((if is_deeplink_device device_type then [Import deeplink_module] else []),
     Return tt).
Proof.
  intros H. unfold try_import_deeplink. cbv zeta.
  rewrite is_deeplink_device_existsb.
  destruct (is_deeplink_device device_type); [|reflexivity].
  run_block. fold deeplink_module. rewrite (H eq_refl). reflexivity.
Qed.

Lemma check_env_torch_returns env :
  env_import env "torch" = None ->
  env_torch_smoke env = None ->
  check_env_torch env = (torch_checking ++ [torch_smoke_test], Return tt).
Proof.
  intros H1 H2. unfold check_env_torch. run_block. rewrite H1, H2. reflexivity.
Qed.

Lemma check_env_triton_returns env t l v major minor :
  check_env_triton_try env triton_locals0 = (t, l, Return tt) ->
  parse_version env (env_triton_version env) = inr v ->
  env_device_capability env = inr (major, minor) ->
  ~ ((major <= 7)%Z /\ Version.leb v v231 = true) ->
  check_env_triton env "cuda" =
    (t ++ [Call "torch.cuda.get_device_capability" []], Return tt).
Proof.
  intros Htry Hv Hcap Hgate.
  pose proof (wp_Return _ _ _ _ _ _ _ (check_env_triton_try_wp env triton_locals0) Htry)
    as (_ & Htorch & v' & Hv' & Hlv).
  rewrite Hv in Hv'. injection Hv' as <-.
  unfold check_env_triton, run, bind, try_except. rewrite Htry.
  rewrite (check_env_triton_capability_eq env l v major minor Htorch Hlv Hcap).
  destruct (Z.leb_spec major 7) as [Hle|Hgt];
    destruct (Version.leb v v231) eqn:Hleb; cbn [andb]; try reflexivity.
  destruct Hgate. split; [exact Hle|reflexivity].
Qed.

(** Property X20.  On a host that meets every requirement, [check_env]
    returns normally.  The requirements are: the [dlinfer] extension
    imports when the device type is one of the three it serves; [torch]
    imports and the runtime smoke test passes; and, for ['cuda'], the
    [try] statement of the kernel-compiler probe ends normally and the
    device is not one of capability at most 7 paired with triton at most
    2.3.1.  The probes run in the order backend, runtime, kernel compiler;
    for a device type other than ['cuda'] the run ends after the runtime
    smoke test. *)
Theorem check_env_passes (env : Env) (device_type : string) :
  (is_deeplink_device device_type = true ->
   env_import env deeplink_module = None) ->
  env_import env "torch" = None ->
  env_torch_smoke env = None ->
  let checked :=
    Log INFO "Checking environment for PyTorch Engine." false ::
      (if is_deeplink_device device_type then [Import deeplink_module] else []) ++
      torch_checking ++ [torch_smoke_test] in
  (device_type <> "cuda" -> check_env env device_type = (checked, Return tt)) /\
  (device_type = "cuda" ->
   forall t l v major minor,
     check_env_triton_try env triton_locals0 = (t, l, Return tt) ->
     parse_version env (env_triton_version env) = inr v ->
     env_device_capability env = inr (major, minor) ->
     ~ ((major <= 7)%Z /\ Version.leb v v231 = true) ->
     check_env env device_type =
       (checked ++ t ++ [Call "torch.cuda.get_device_capability" []],
        Return tt)).
Proof.
  intros Hdl Htorch Hsmoke. cbv zeta. split.
  - intros Hdev. apply String.eqb_neq in Hdev.
    unfold check_env, check_env_deeplink. run_block.
    rewrite (try_import_deeplink_returns env device_type Hdl).
    cbv beta iota delta [fst snd].
    rewrite (check_env_torch_returns env Htorch Hsmoke).
    cbv beta iota delta [fst snd]. rewrite Hdev.
    cbv beta iota delta [fst snd].
    rewrite ?app_nil_r, <- ?app_assoc. reflexivity.
  - intros -> t l v major minor Htry Hv Hcap Hgate.
    unfold check_env, check_env_deeplink. run_block.
    rewrite (try_import_deeplink_returns env "cuda" Hdl).
    cbv beta iota delta [fst snd].
    rewrite (check_env_torch_returns env Htorch Hsmoke).
    cbv beta iota delta [fst snd].
    change (String.eqb "cuda" "cuda") with true. cbv iota.
    rewrite (check_env_triton_returns env t l v major minor Htry Hv Hcap Hgate).
    cbv beta iota delta [fst snd].
    rewrite ?app_nil_r, <- ?app_assoc. reflexivity.
Qed.

Lemma check_env_passes_witness :
  outcome (check_env env_healthy "cuda") = Return tt /\
  outcome (check_env (env_triton "2.3.1" (7, 0)%Z) "ascend") = Return tt.
Proof.
  split.
  - destruct (check_env_passes env_healthy "cuda") as [_ H];
      [reflexivity|reflexivity|reflexivity|].
    erewrite (H eq_refl _ _ v3_0_0 8%Z 0%Z);
      [reflexivity|reflexivity|reflexivity|reflexivity|intros [Hle _]; lia].
  - destruct (check_env_passes (env_triton "2.3.1" (7, 0)%Z) "ascend") as [H _];
      [reflexivity|reflexivity|reflexivity|].
    rewrite H; [reflexivity|discriminate].
Defined.
